(** * TCPD diagnostics: the scan orchestration core

    A shallow embedding of [src/core/result.py], [src/core/scanner.py] and
    [src/core/engine.py], together with the scanner table of
    [src/cli/app.py] ([get_all_scanners]), and the properties of the
    orchestration core proved over it; then of what the consumers of a
    report print and export ([src/cli/ui/console.py], the rows of
    [export_to_csv] in [src/cli/ui/export.py]).

    Conventions.
    - A Python [str] is a [string]: a sequence of characters with code
      points below 256.  [lower] follows [str.lower] on that range.
    - A Python [float] is a primitive binary64 [float].
    - A naive [datetime] is the number of microseconds since the start of
      the calendar, a [timedelta] a (signed) number of microseconds.
    - An insertion-ordered [dict] is an association list with unique keys:
      assignment to a present key keeps the key's position.
    - The machine, the operating system and the interpreter outside the
      core are an abstract [Host]; the two clocks, the import system and
      the scanner bodies are state transformers over it.
    - A raised [Exception] is represented by the text [str(e)] the wrapper
      reads from it. *)

From Stdlib Require Import List String Ascii Bool Arith ZArith Lia.
From Stdlib Require Import DecimalString Permutation.
From Stdlib Require Import Floats.PrimFloat Numbers.Cyclic.Int63.Uint63.
Import ListNotations.

Set Implicit Arguments.

Local Open Scope string_scope.
Local Open Scope list_scope.

(* ================================================================= *)
(** ** Python strings *)

(** [str.lower] on one character below 256: [A-Z] and the Latin-1 capitals
    [0xC0-0xDE] (but not the multiplication sign [0xD7]) move up by 32. *)
Definition lower_char (c : ascii) : ascii :=
  let n := nat_of_ascii c in
  if (((65 <=? n) && (n <=? 90))
      || ((192 <=? n) && (n <=? 222) && negb (n =? 215)))%nat
  then ascii_of_nat (n + 32)
  else c.

Fixpoint lower (s : string) : string :=
  match s with
  | EmptyString => EmptyString
  | String c rest => String (lower_char c) (lower rest)
  end.

(** [s.replace(old, new)] for one-character [old] and [new]. *)
Fixpoint replace (old new : ascii) (s : string) : string :=
  match s with
  | EmptyString => EmptyString
  | String c rest =>
      String (if Ascii.eqb c old then new else c) (replace old new rest)
  end.

(** [x in xs] for a list of strings. *)
Definition str_in (x : string) (xs : list string) : bool :=
  existsb (String.eqb x) xs.

(* ================================================================= *)
(** ** Insertion-ordered dictionaries with string keys *)

Section Dict.
Variable V : Type.

Definition dict := list (string * V).

(** [d.get(k)] *)
Fixpoint dict_get (d : dict) (k : string) : option V :=
  match d with
  | [] => None
  | (k', v) :: rest => if String.eqb k k' then Some v else dict_get rest k
  end.

(** [d[k] = v]: a present key keeps its place, a new key goes last. *)
Fixpoint dict_set (d : dict) (k : string) (v : V) : dict :=
  match d with
  | [] => [(k, v)]
  | (k', v') :: rest =>
      if String.eqb k k' then (k', v) :: rest
      else (k', v') :: dict_set rest k v
  end.

Definition dict_keys (d : dict) : list string := map fst d.
Definition dict_values (d : dict) : list V := map snd d.
End Dict.

(* ================================================================= *)
(** ** Numbers and time *)

Definition datetime := Z.
Definition timedelta := Z.

(** [int] to [float]; exact below [2^53]. *)
Definition float_of_Z (z : Z) : float :=
  if (z <? 0)%Z then PrimFloat.opp (PrimFloat.of_uint63 (Uint63.of_Z (- z)))
  else PrimFloat.of_uint63 (Uint63.of_Z z).

(** [timedelta.total_seconds()]: microseconds over [10**6]. *)
Definition total_seconds (td : timedelta) : float :=
  PrimFloat.div (float_of_Z td) 1000000%float.

(** [sum(xs)] on floats: left to right from [0]. *)
Definition float_sum (xs : list float) : float :=
  fold_left PrimFloat.add xs 0%float.

(** [sum(xs)] on non-negative ints. *)
Definition int_sum (xs : list nat) : nat := fold_left Nat.add xs 0.

(* ================================================================= *)
(** ** The host: clocks, imports, and what a raised exception leaves *)

(** What a call that may raise leaves behind: its value, or the text
    [str(e)] of the [Exception] it raised.  What is raised outside the
    class [Exception] ([KeyboardInterrupt], [SystemExit]) ends the program
    and has no place here. *)
Inductive outcome (A : Type) : Type :=
| Returned (a : A)
| Raised (str_e : string).

Arguments Returned {A} a.
Arguments Raised {A} str_e.

(** What [__import__(dep)] leaves behind. *)
Inductive import_outcome : Type :=
| Imported
| ImportError
| ImportRaised (str_e : string).

(** The interpreter's services used by the core, over a host state [H]. *)
Class Host (H : Type) : Type := {
  perf_counter : H -> float * H;                  (* time.perf_counter() *)
  datetime_now : H -> datetime * H;               (* datetime.now() *)
  import_module : string -> H -> import_outcome * H (* __import__(dep) *)
}.

(** Calls observed from outside the core: the progress consumer's calls,
    entries into the wrapper [run], and entries into a scanner's [scan]. *)
Inductive event : Type :=
| EvProgress (current total : nat) (label : string)
| EvRun (scanner : string)
| EvScan (scanner : string).

Definition is_progress (e : event) : bool :=
  match e with EvProgress _ _ _ => true | _ => false end.


Definition is_scan (e : event) : bool :=
  match e with EvScan _ => true | _ => false end.

Section Effects.
Context {H : Type}.

(** The host state and the record of observed calls.  Scanner bodies
    and the progress consumer act on [host] only. *)
Record World : Type := mkWorld {
  host : H;
  trace : list event
}.

Definition M (A : Type) : Type := World -> A * World.

Definition ret {A} (a : A) : M A := fun w => (a, w).

Definition bind {A B} (m : M A) (k : A -> M B) : M B :=
  fun w => let (a, w') := m w in k a w'.

Definition lift {A} (f : H -> A * H) : M A :=
  fun w => let (a, h) := f (host w) in
           (a, {| host := h; trace := trace w |}).

Definition emit (e : event) : M unit :=
  fun w => (tt, {| host := host w; trace := trace w ++ [e] |}).
End Effects.

Arguments World H : clear implicits.
Arguments M H A : clear implicits.

Notation "x <- c ;; k" := (bind c (fun x => k))
  (at level 61, c at next level, right associativity).
Notation "c ;;; k" := (bind c (fun _ => k))
  (at level 61, right associativity).

(* ================================================================= *)
(** ** result.py *)

Inductive Severity : Type := PASS | INFO | WARNING | CRITICAL | UNKNOWN.

(** [Severity.value] *)
Definition Severity_value (s : Severity) : string :=
  match s with
  | PASS => "pass" | INFO => "info" | WARNING => "warning"
  | CRITICAL => "critical" | UNKNOWN => "unknown"
  end.

(** [==] on enum members *)
Definition Severity_eqb (a b : Severity) : bool :=
  match a, b with
  | PASS, PASS | INFO, INFO | WARNING, WARNING
  | CRITICAL, CRITICAL | UNKNOWN, UNKNOWN => true
  | _, _ => false
  end.

Module Finding.
Record t : Type := mk {
  title : string;
  description : string;
  severity : Severity;
  category : string;
  component : option string;
  recommendation : option string;
  details : dict string
}.
End Finding.

Module ScanResult.
Record t : Type := mk {
  scanner_name : string;
  category : string;
  success : bool;
  findings : list Finding.t;
  duration_ms : float;
  raw_data : dict string;
  error : option string;
  timestamp : datetime
}.

(** [result.duration_ms = d] *)
Definition set_duration_ms (r : t) (d : float) : t :=
  {| scanner_name := scanner_name r; category := category r;
     success := success r; findings := findings r; duration_ms := d;
     raw_data := raw_data r; error := error r; timestamp := timestamp r |}.

(** [sum(1 for f in self.findings if f.severity == level)] *)
Definition count_severity (level : Severity) (fs : list Finding.t) : nat :=
  int_sum (map (fun _ => 1)
             (filter (fun f => Severity_eqb (Finding.severity f) level) fs)).

Definition critical_count (self : t) : nat :=
  count_severity CRITICAL (findings self).

Definition warning_count (self : t) : nat :=
  count_severity WARNING (findings self).

Definition pass_count (self : t) : nat :=
  count_severity PASS (findings self).
End ScanResult.

Module DiagnosticsReport.
Record t : Type := mk {
  results : list ScanResult.t;
  start_time : datetime;
  end_time : option datetime;
  system_info : dict string
}.

(** [self.results.append(result)] *)
Definition add_result (self : t) (result : ScanResult.t) : t :=
  {| results := results self ++ [result]; start_time := start_time self;
     end_time := end_time self; system_info := system_info self |}.

(** [self.end_time = now] *)
Definition set_end_time (self : t) (now : datetime) : t :=
  {| results := results self; start_time := start_time self;
     end_time := Some now; system_info := system_info self |}.

(** A [datetime] is always truthy, so [if self.end_time:] tests for
    [None]. *)
Definition total_duration_ms (self : t) : float :=
  match end_time self with
  | Some e =>
      PrimFloat.mul (total_seconds (e - start_time self)%Z) 1000%float
  | None => float_sum (map ScanResult.duration_ms (results self))
  end.

Definition all_findings (self : t) : list Finding.t :=
  flat_map ScanResult.findings (results self).

Definition critical_count (self : t) : nat :=
  int_sum (map ScanResult.critical_count (results self)).

Definition warning_count (self : t) : nat :=
  int_sum (map ScanResult.warning_count (results self)).

Definition pass_count (self : t) : nat :=
  int_sum (map ScanResult.pass_count (results self)).

Section WithHost.
Context {H : Type} `{Host H}.

(** [DiagnosticsReport()]: every field takes its default. *)
Definition init : M H t :=
  now <- lift datetime_now ;;
  ret {| results := []; start_time := now; end_time := None;
         system_info := [] |}.

(** [self.end_time = datetime.now()] *)
Definition finalize (self : t) : M H t :=
  now <- lift datetime_now ;;
  ret (set_end_time self now).
End WithHost.
End DiagnosticsReport.

(* ================================================================= *)
(** ** scanner.py *)

Module BaseScanner.
Section WithHost.
Context {H : Type} `{Host H}.

(** A scanner instance: the class attributes of its class, the
    instance attribute [_is_admin], and the body of its [scan]
    method.  The body sees the instance ([_start_time], which
    [_create_result] reads, and [_is_admin]) and the host.
    [_start_time] is written at the head of every [run] and read only
    below it, so it is carried as a value of [run]. *)
Record t : Type := mk {
  name : string;
  category : string;
  description : string;
  requires_admin : bool;
  dependencies : list string;
  _is_admin : bool;
  scan : float -> bool -> H -> outcome ScanResult.t * H
}.

(** [__init__] on a class with the given attributes and body. *)
Definition init (name category description : string)
    (requires_admin : bool) (dependencies : list string)
    (scan : float -> bool -> H -> outcome ScanResult.t * H) : t :=
  {| name := name; category := category; description := description;
     requires_admin := requires_admin; dependencies := dependencies;
     _is_admin := false; scan := scan |}.

Definition set_admin_status (self : t) (is_admin : bool) : t :=
  {| name := name self; category := category self;
     description := description self;
     requires_admin := requires_admin self;
     dependencies := dependencies self;
     _is_admin := is_admin; scan := scan self |}.

(** The loop of [_check_dependencies]: [ImportError] answers [False],
    any other exception of the import leaves the method. *)
Fixpoint _check_dependencies_from (deps : list string)
  : M H (outcome bool) :=
  match deps with
  | [] => ret (Returned true)
  | dep :: rest =>
      r <- lift (import_module dep) ;;
      match r with
      | Imported => _check_dependencies_from rest
      | ImportError => ret (Returned false)
      | ImportRaised e => ret (Raised e)
      end
  end.

Definition _check_dependencies (self : t) : M H (outcome bool) :=
  _check_dependencies_from (dependencies self).

Definition is_available (self : t) : M H (outcome bool) :=
  if requires_admin self && negb (_is_admin self)
  then ret (Returned false)
  else _check_dependencies self.

(** [(time.perf_counter() - self._start_time) * 1000] *)
Definition _elapsed_ms (_start_time : float) : M H float :=
  now <- lift perf_counter ;;
  ret (PrimFloat.mul (PrimFloat.sub now _start_time) 1000%float).

Definition not_available_error : string :=
  "Scanner not available (missing dependencies or admin rights)".

(** [ScanResult(scanner_name=self.name, category=self.category,
    success=False, error=error, duration_ms=self._elapsed_ms())]:
    the argument is evaluated first, then the default [timestamp]. *)
Definition failure_result (self : t) (_start_time : float)
    (error : string) : M H ScanResult.t :=
  d <- _elapsed_ms _start_time ;;
  ts <- lift datetime_now ;;
  ret {| ScanResult.scanner_name := name self;
         ScanResult.category := category self;
         ScanResult.success := false;
         ScanResult.findings := [];
         ScanResult.duration_ms := d;
         ScanResult.raw_data := [];
         ScanResult.error := Some error;
         ScanResult.timestamp := ts |}.

Definition run (self : t) : M H ScanResult.t :=
  emit (EvRun (name self)) ;;;
  _start_time <- lift perf_counter ;;
  available <- is_available self ;;
  match available with
  | Raised e => failure_result self _start_time e
  | Returned false => failure_result self _start_time not_available_error
  | Returned true =>
      emit (EvScan (name self)) ;;;
      r <- lift (scan self _start_time (_is_admin self)) ;;
      match r with
      | Raised e => failure_result self _start_time e
      | Returned result =>
          d <- _elapsed_ms _start_time ;;
          ret (ScanResult.set_duration_ms result d)
      end
  end.
End WithHost.

Arguments t H : clear implicits.
End BaseScanner.

(* ================================================================= *)
(** ** engine.py *)

Module ScanEngine.
(** [None] means all scanners. *)
Definition MODES : dict (option (list string)) :=
  [ ("quick", Some ["cpu"; "memory"; "disk_usage"; "antivirus"; "firewall"]);
    ("full", None);
    ("hardware", Some ["cpu"; "gpu"; "memory"; "storage"; "battery";
                       "motherboard"; "network_adapters"; "peripherals"]);
    ("security", Some ["antivirus"; "firewall"; "windows_update"; "ports";
                       "processes"; "startup"; "services"; "registry";
                       "users"; "bitlocker"; "secure_boot"; "uac";
                       "password_policy"; "event_log"]);
    ("network", Some ["network_adapters"; "connectivity"; "wifi"; "dns";
                      "speed_test"]) ].

(** [self.MODES.get(mode)]: [None] for a missing key as for a key bound
    to [None]. *)
Definition MODES_get (mode : string) : option (list string) :=
  match dict_get MODES mode with
  | Some v => v
  | None => None
  end.

(** [scanner.name.lower().replace(" ", "_")] *)
Definition normalized_key (name : string) : string :=
  replace " "%char "_"%char (lower name).

Section WithHost.
Context {H : Type} `{Host H}.

Record t : Type := mk {
  is_admin : bool;
  _scanners : dict (BaseScanner.t H);
  _report : option DiagnosticsReport.t
}.

(** [__init__] *)
Definition init (is_admin : bool) : t :=
  {| is_admin := is_admin; _scanners := []; _report := None |}.

Definition register_scanner (self : t) (scanner : BaseScanner.t H) : t :=
  let scanner := BaseScanner.set_admin_status scanner (is_admin self) in
  let key := normalized_key (BaseScanner.name scanner) in
  {| is_admin := is_admin self;
     _scanners := dict_set (_scanners self) key scanner;
     _report := _report self |}.

Definition register_scanners (self : t) (scanners : list (BaseScanner.t H))
  : t :=
  fold_left register_scanner scanners self.

(** The filtering loop of [get_scanners_for_mode]. *)
Fixpoint filter_allowed (allowed : list string)
    (items : dict (BaseScanner.t H)) : list (BaseScanner.t H) :=
  match items with
  | [] => []
  | (key, scanner) :: rest =>
      if str_in key allowed
         || str_in (BaseScanner.category scanner) allowed
      then scanner :: filter_allowed allowed rest
      else filter_allowed allowed rest
  end.

Definition get_scanners_for_mode (self : t) (mode : string)
  : list (BaseScanner.t H) :=
  match MODES_get mode with
  | None => dict_values (_scanners self)
  | Some allowed => filter_allowed allowed (_scanners self)
  end.

(** A supplied progress consumer: it acts on the host and returns. *)
Definition callback : Type := nat -> nat -> string -> H -> H.

(** [if progress_callback: progress_callback(current, total, label)] *)
Definition notify (progress_callback : option callback)
    (current total : nat) (label : string) : M H unit :=
  match progress_callback with
  | Some cb =>
      emit (EvProgress current total label) ;;;
      lift (fun h => (tt, cb current total label h))
  | None => ret tt
  end.

(** [for i, scanner in enumerate(scanners): ...], from index [i]. *)
Fixpoint scan_loop (progress_callback : option callback) (total : nat)
    (i : nat) (scanners : list (BaseScanner.t H))
    (report : DiagnosticsReport.t) : M H DiagnosticsReport.t :=
  match scanners with
  | [] => ret report
  | scanner :: rest =>
      notify progress_callback i total (BaseScanner.name scanner) ;;;
      result <- BaseScanner.run scanner ;;
      scan_loop progress_callback total (S i) rest
        (DiagnosticsReport.add_result report result)
  end.

(** Returns the report and the engine holding it as [_report]. *)
Definition run_scan (self : t) (mode : string)
    (progress_callback : option callback)
  : M H (DiagnosticsReport.t * t) :=
  report <- DiagnosticsReport.init ;;
  let scanners := get_scanners_for_mode self mode in
  let total := List.length scanners in
  report <- scan_loop progress_callback total 0 scanners report ;;
  report <- DiagnosticsReport.finalize report ;;
  notify progress_callback total total "Complete" ;;;
  ret (report, {| is_admin := is_admin self;
                  _scanners := _scanners self;
                  _report := Some report |}).

Definition run_single_scanner (self : t) (scanner_name : string)
  : M H (option ScanResult.t) :=
  let key := normalized_key scanner_name in
  match dict_get (_scanners self) key with
  | Some scanner => r <- BaseScanner.run scanner ;; ret (Some r)
  | None => ret None
  end.

Definition available_scanners (self : t) : list string :=
  dict_keys (_scanners self).

Definition scanner_count (self : t) : nat :=
  List.length (_scanners self).
End WithHost.

Arguments t H : clear implicits.
Arguments callback H : clear implicits.
End ScanEngine.

(* ================================================================= *)
(** ** cli/app.py: the shipped scanners *)

Section Shipped.
Context {H : Type} `{Host H}.

(** The body of [scan] of the class of the given name. *)
Variable scan_of : string -> float -> bool -> H -> outcome ScanResult.t * H.

(** [get_all_scanners()], in the order of the source. *)
Definition get_all_scanners : list (BaseScanner.t H) :=
  [ (* Hardware *)
    BaseScanner.init "CPU" "hardware" "CPU information and temperature"
      false ["psutil"] (scan_of "CPUScanner");
    BaseScanner.init "GPU" "hardware" "Graphics card information"
      false [] (scan_of "GPUScanner");
    BaseScanner.init "Memory" "hardware" "RAM usage and stick details"
      false ["psutil"] (scan_of "MemoryScanner");
    BaseScanner.init "Storage" "hardware" "Disk health and usage"
      false ["psutil"] (scan_of "StorageScanner");
    BaseScanner.init "Battery" "hardware" "Battery health and wear level"
      false ["psutil"] (scan_of "BatteryScanner");
    BaseScanner.init "Motherboard" "hardware" "Motherboard and BIOS details"
      false [] (scan_of "MotherboardScanner");
    BaseScanner.init "Network Adapters" "hardware"
      "Network interfaces and connectivity"
      false ["psutil"] (scan_of "NetworkAdaptersScanner");
    BaseScanner.init "Peripherals" "hardware" "USB devices, audio, monitors"
      false [] (scan_of "PeripheralsScanner");
    (* Security *)
    BaseScanner.init "Antivirus" "security" "Windows Defender and AV status"
      false [] (scan_of "AntivirusScanner");
    BaseScanner.init "Firewall" "security" "Windows Firewall configuration"
      false [] (scan_of "FirewallScanner");
    BaseScanner.init "Windows Update" "security"
      "Pending updates and update history"
      false [] (scan_of "WindowsUpdateScanner");
    BaseScanner.init "Open Ports" "security" "Listening ports and services"
      false ["psutil"] (scan_of "PortsScanner");
    BaseScanner.init "Processes" "security" "Running process analysis"
      false ["psutil"] (scan_of "ProcessesScanner");
    BaseScanner.init "Startup Programs" "security"
      "Autorun entries and startup programs"
      false [] (scan_of "StartupScanner");
    BaseScanner.init "Services" "security" "Windows services status"
      false [] (scan_of "ServicesScanner");
    BaseScanner.init "User Accounts" "security" "Local user accounts analysis"
      false [] (scan_of "UsersScanner");
    BaseScanner.init "BitLocker" "security" "Disk encryption status"
      true [] (scan_of "BitLockerScanner");
    BaseScanner.init "Secure Boot" "security"
      "Secure Boot, UEFI, and TPM status"
      false [] (scan_of "SecureBootScanner");
    BaseScanner.init "UAC" "security" "User Account Control settings"
      false [] (scan_of "UACScanner");
    BaseScanner.init "Password Policy" "security"
      "Password policy and account lockout settings"
      false [] (scan_of "PasswordPolicyScanner");
    BaseScanner.init "Event Log" "security" "Security event log analysis"
      true [] (scan_of "EventLogScanner");
    (* Network *)
    BaseScanner.init "Connectivity" "network"
      "Internet connectivity and latency tests"
      false [] (scan_of "ConnectivityScanner");
    BaseScanner.init "WiFi" "network" "WiFi signal strength and security"
      false [] (scan_of "WiFiScanner");
    BaseScanner.init "DNS" "network"
      "DNS server performance and configuration"
      false [] (scan_of "DNSScanner");
    BaseScanner.init "Speed Test" "network"
      "Network speed and latency estimation"
      false [] (scan_of "SpeedTestScanner");
    (* System *)
    BaseScanner.init "OS Info" "system" "Windows version and system details"
      false [] (scan_of "OSInfoScanner") ].

(** [engine = ScanEngine(is_admin=admin_status);
    engine.register_scanners(get_all_scanners())] *)
Definition shipped_engine (admin_status : bool) : ScanEngine.t H :=
  ScanEngine.register_scanners (ScanEngine.init admin_status)
    get_all_scanners.
End Shipped.

(* ================================================================= *)
(** ** Observations on a run *)

Section Observations.
Context {H : Type} `{Host H}.

(** The calls a computation adds to the record. *)
Definition events_of {A} (m : M H A) (w : World H) : list event :=
  skipn (List.length (trace w)) (trace (snd (m w))).

(** The calls [notify] adds. *)
Definition notify_events (progress_callback : option (ScanEngine.callback H))
    (current total : nat) (label : string) : list event :=
  match progress_callback with
  | Some _ => [EvProgress current total label]
  | None => []
  end.

(** The progress protocol of the specification for the scanners from index
    [i]: the consumer is told of a scanner, then its wrapper is entered. *)
Fixpoint progress_protocol (total i : nat) (scanners : list (BaseScanner.t H))
  : list event :=
  match scanners with
  | [] => []
  | s :: rest =>
      EvProgress i total (BaseScanner.name s)
        :: EvRun (BaseScanner.name s)
        :: progress_protocol total (S i) rest
  end.

(** [m] run in [w] adds exactly the calls [evs] to the record. *)
Definition adds {A} (m : M H A) (w : World H) (evs : list event) : Prop :=
  trace (snd (m w)) = trace w ++ evs.

(** [m] adds no call to the record. *)
Definition quiet {A} (m : M H A) : Prop :=
  forall w, trace (snd (m w)) = trace w.

(** The admin gate of [is_available]. *)
Definition admin_gated (s : BaseScanner.t H) : bool :=
  BaseScanner.requires_admin s && negb (BaseScanner._is_admin s).

(** [enumerate(xs)] *)
Definition enumerate {A} (xs : list A) : list (nat * A) :=
  combine (seq 0 (List.length xs)) xs.

(** The calls of the loop of [run_scan], scanner by scanner: the
    announcement, the entry into [run], and the entry into [scan] unless
    the scanner was unavailable. *)
Inductive loop_events (progress_callback : option (ScanEngine.callback H))
    (total : nat) : nat -> list (BaseScanner.t H) -> list event -> Prop :=
| loop_events_nil : forall i, loop_events progress_callback total i [] []
| loop_events_cons : forall i s rest scanned evs,
    scanned = [] \/ scanned = [EvScan (BaseScanner.name s)] ->
    (admin_gated s = true -> scanned = []) ->
    loop_events progress_callback total (S i) rest evs ->
    loop_events progress_callback total i (s :: rest)
      (notify_events progress_callback i total (BaseScanner.name s)
         ++ EvRun (BaseScanner.name s) :: scanned ++ evs).

(** [r] is what the wrapper returned for [s] in some world. *)
Definition run_result_of (s : BaseScanner.t H) (r : ScanResult.t) : Prop :=
  exists w, r = fst (BaseScanner.run s w).

(** Engines as a program builds them: constructed, then scanners
    registered and scans run. *)
Inductive built : ScanEngine.t H -> Prop :=
| built_init : forall is_admin, built (ScanEngine.init is_admin)
| built_register : forall e s,
    built e -> built (ScanEngine.register_scanner e s)
| built_run_scan : forall e mode cb w,
    built e -> built (snd (fst (ScanEngine.run_scan e mode cb w))).

(** The stages of one call [run] of [s] entered in [w]: the reading of
    [_start_time], the availability check, and the call of [scan] made
    when the check answers [True]. *)
Definition started (s : BaseScanner.t H) (w : World H) : float * World H :=
  lift perf_counter (snd (emit (EvRun (BaseScanner.name s)) w)).

Definition checked (s : BaseScanner.t H) (w : World H)
  : outcome bool * World H :=
  BaseScanner.is_available s (snd (started s w)).

Definition scanned (s : BaseScanner.t H) (w : World H)
  : outcome ScanResult.t * World H :=
  lift (BaseScanner.scan s (fst (started s w)) (BaseScanner._is_admin s))
       (snd (emit (EvScan (BaseScanner.name s)) (snd (checked s w)))).

(** In the call [run] of [s] entered in [w], [scan] is called and raises
    an exception of text [str_e]. *)
Definition scan_raises_in (s : BaseScanner.t H) (w : World H)
    (str_e : string) : Prop :=
  fst (checked s w) = Returned true /\ fst (scanned s w) = Raised str_e.

(** In the call [run] of [s] entered in [w], [scan] is called and returns
    [result]. *)
Definition scan_returns_in (s : BaseScanner.t H) (w : World H)
    (result : ScanResult.t) : Prop :=
  fst (checked s w) = Returned true /\ fst (scanned s w) = Returned result.

(** The wrapper's measurement after [scan] has returned: the reading of
    [time.perf_counter()] then, less [_start_time], in milliseconds. *)
Definition measured_ms (s : BaseScanner.t H) (w : World H) : float :=
  PrimFloat.mul
    (PrimFloat.sub (fst (perf_counter (host (snd (scanned s w)))))
                   (fst (started s w)))
    1000%float.

(** Every entry of the registry sits under the normalized name of its
    scanner, carries the engine's privilege flag, and has a key of its
    own. *)
Definition registry_ok (e : ScanEngine.t H) : Prop :=
  Forall (fun kv =>
            fst kv = ScanEngine.normalized_key (BaseScanner.name (snd kv))
            /\ BaseScanner._is_admin (snd kv) = ScanEngine.is_admin e)
         (ScanEngine._scanners e)
  /\ NoDup (dict_keys (ScanEngine._scanners e)).

(** The test of the filtering loop on one entry of the registry. *)
Definition allowed_entry (allowed : list string)
    (kv : string * BaseScanner.t H) : bool :=
  str_in (fst kv) allowed
  || str_in (BaseScanner.category (snd kv)) allowed.

(** The allow-list entry [x] names no key and no category of [items]. *)
Definition unmatched (x : string) (items : dict (BaseScanner.t H)) : bool :=
  forallb (fun kv => negb (String.eqb (fst kv) x)
                     && negb (String.eqb (BaseScanner.category (snd kv)) x))
          items.

(** The registry key of a scanner. *)
Definition key_of (s : BaseScanner.t H) : string :=
  ScanEngine.normalized_key (BaseScanner.name s).

(** The findings of every result without those at [INFO] and [UNKNOWN]. *)
Definition classified_only (r : DiagnosticsReport.t) : DiagnosticsReport.t :=
  let keep f :=
    match Finding.severity f with
    | INFO | UNKNOWN => false
    | _ => true
    end in
  {| DiagnosticsReport.results :=
       map (fun res =>
              {| ScanResult.scanner_name := ScanResult.scanner_name res;
                 ScanResult.category := ScanResult.category res;
                 ScanResult.success := ScanResult.success res;
                 ScanResult.findings := filter keep (ScanResult.findings res);
                 ScanResult.duration_ms := ScanResult.duration_ms res;
                 ScanResult.raw_data := ScanResult.raw_data res;
                 ScanResult.error := ScanResult.error res;
                 ScanResult.timestamp := ScanResult.timestamp res |})
           (DiagnosticsReport.results r);
     DiagnosticsReport.start_time := DiagnosticsReport.start_time r;
     DiagnosticsReport.end_time := DiagnosticsReport.end_time r;
     DiagnosticsReport.system_info := DiagnosticsReport.system_info r |}.
End Observations.

(* ================================================================= *)
(** ** What the host shows of the calls made *)

Section Marks.
Context {H : Type} `{Host H}.

(** An observer reads marks off the host through [obs].  A call of the
    progress consumer leaves the mark [told current total label]; the body
    of the scanner named [n] leaves the marks [mark n]. *)
Variable X : Type.
Variable obs : H -> list X.
Variable told : nat -> nat -> string -> X.
Variable mark : string -> list X.

(** The marks the call behind a record of the trace leaves. *)
Definition view (ev : event) : list X :=
  match ev with
  | EvProgress current total label => [told current total label]
  | EvRun _ => []
  | EvScan n => mark n
  end.

(** The clocks and the import system leave the marks alone. *)
Definition services_keep_marks : Prop :=
  (forall h, obs (snd (perf_counter h)) = obs h)
  /\ (forall h, obs (snd (datetime_now h)) = obs h)
  /\ (forall dep h, obs (snd (import_module dep h)) = obs h).

(** Every call of the consumer [f] leaves its mark, last. *)
Definition consumer_marks (f : ScanEngine.callback H) : Prop :=
  forall current total label h,
    obs (f current total label h) = obs h ++ [told current total label].

(** Every call of the body of [s] leaves the marks of [s], last. *)
Definition body_marks (s : BaseScanner.t H) : Prop :=
  forall _start_time _is_admin h,
    obs (snd (BaseScanner.scan s _start_time _is_admin h))
    = obs h ++ mark (BaseScanner.name s).

(** The trace of [m] grows by its records and the host shows the marks of
    the calls behind them, in the same order. *)
Definition tracked {A} (m : M H A) : Prop :=
  forall w,
    adds m w (events_of m w)
    /\ obs (host (snd (m w)))
       = obs (host w) ++ flat_map view (events_of m w).
End Marks.

Section AfterLoop.
Context {H : Type} `{Host H}.

(** The world in which [run_scan] calls [finalize]: after the report is
    created and the loop over the selected scanners has ended. *)
Definition world_at_finalize (self : ScanEngine.t H) (mode : string)
    (progress_callback : option (ScanEngine.callback H)) (w : World H)
  : World H :=
  let scanners := ScanEngine.get_scanners_for_mode self mode in
  snd (ScanEngine.scan_loop progress_callback (List.length scanners) 0
         scanners (fst (DiagnosticsReport.init w))
         (snd (DiagnosticsReport.init w))).
End AfterLoop.

(* ================================================================= *)
(** ** A simulated host and stub scanners, for concrete runs *)

(** A host whose clocks advance by one tick per reading and whose import
    system knows a list of installed modules. *)
Record SimHost : Type := mkSimHost {
  ticks : nat;
  installed : list string
}.

Definition sim_tick (h : SimHost) : SimHost :=
  {| ticks := S (ticks h); installed := installed h |}.

#[export] Instance SimHost_Host : Host SimHost := {|
  perf_counter h := (float_of_Z (Z.of_nat (ticks h)), sim_tick h);
  datetime_now h := ((Z.of_nat (ticks h) * 1000000)%Z, sim_tick h);
  import_module dep h :=
    (if str_in dep (installed h) then Imported else ImportError, h)
|}.

Definition sim_world : World SimHost :=
  {| host := {| ticks := 0; installed := ["psutil"] |}; trace := [] |}.

Definition pass_finding : Finding.t :=
  {| Finding.title := "ok"; Finding.description := "all good";
     Finding.severity := PASS; Finding.category := "hardware";
     Finding.component := Some "Stub"; Finding.recommendation := None;
     Finding.details := [] |}.

(** A body that succeeds with one [PASS] finding and reports [999999] ms
    for itself; it takes three ticks. *)
Definition scan_succeeds (name category : string)
  : float -> bool -> SimHost -> outcome ScanResult.t * SimHost :=
  fun _ _ h =>
    (Returned {| ScanResult.scanner_name := name;
                 ScanResult.category := category;
                 ScanResult.success := true;
                 ScanResult.findings := [pass_finding];
                 ScanResult.duration_ms := 999999%float;
                 ScanResult.raw_data := [];
                 ScanResult.error := None;
                 ScanResult.timestamp := 0%Z |},
     sim_tick (sim_tick (sim_tick h))).

(** A body that raises an exception whose text is [str_e]. *)
Definition scan_raises (str_e : string)
  : float -> bool -> SimHost -> outcome ScanResult.t * SimHost :=
  fun _ _ h => (Raised str_e, sim_tick h).

Definition stub_a : BaseScanner.t SimHost :=
  BaseScanner.init "CPU" "hardware" "stub" false ["psutil"]
    (scan_succeeds "CPU" "hardware").

Definition stub_b : BaseScanner.t SimHost :=
  BaseScanner.init "Firewall" "security" "stub" true []
    (scan_succeeds "Firewall" "security").

Definition stub_c : BaseScanner.t SimHost :=
  BaseScanner.init "OS Info" "system" "stub" false []
    (scan_succeeds "OS Info" "system").

Definition stub_faulty : BaseScanner.t SimHost :=
  BaseScanner.init "Memory" "hardware" "stub" false []
    (scan_raises "boom").

(** Its body raises an exception without arguments: [raise Exception()]. *)
Definition stub_silent_fault : BaseScanner.t SimHost :=
  BaseScanner.init "Memory" "hardware" "stub" false []
    (scan_raises "").

Definition finding_at (level : Severity) : Finding.t :=
  {| Finding.title := "finding"; Finding.description := "";
     Finding.severity := level; Finding.category := "security";
     Finding.component := None; Finding.recommendation := None;
     Finding.details := [] |}.

Definition result_with (fs : list Finding.t) (ms : float) : ScanResult.t :=
  {| ScanResult.scanner_name := "Stub"; ScanResult.category := "security";
     ScanResult.success := true; ScanResult.findings := fs;
     ScanResult.duration_ms := ms; ScanResult.raw_data := [];
     ScanResult.error := None; ScanResult.timestamp := 0%Z |}.

(** A report, not finalized, holding 2 critical, 3 warning and 5 pass
    findings among findings at the other two levels. *)
Definition sample_report : DiagnosticsReport.t :=
  {| DiagnosticsReport.results :=
       [ result_with [finding_at CRITICAL; finding_at INFO;
                      finding_at WARNING; finding_at CRITICAL] 1.5%float;
         result_with [] 0.25%float;
         result_with [finding_at PASS; finding_at PASS; finding_at UNKNOWN;
                      finding_at WARNING; finding_at PASS; finding_at INFO;
                      finding_at PASS; finding_at WARNING; finding_at PASS]
                     2%float ];
     DiagnosticsReport.start_time := 1000000%Z;
     DiagnosticsReport.end_time := None;
     DiagnosticsReport.system_info := [] |}.

Definition sim_callback : ScanEngine.callback SimHost :=
  fun _ _ _ h => h.

Definition stub_engine : ScanEngine.t SimHost :=
  ScanEngine.register_scanners (ScanEngine.init false)
    [stub_a; stub_faulty; stub_b; stub_c].

(** A host that keeps the marks of the calls made on it: those of the
    consumer [spy_callback] and those of the bodies [spy_body]. *)
Inductive spy_mark : Type :=
| Told (current total : nat) (label : string)
| Scanned (scanner : string).

Record SpyHost : Type := mkSpyHost {
  spy_ticks : nat;
  spy_marks : list spy_mark
}.

Definition spy_tick (h : SpyHost) : SpyHost :=
  {| spy_ticks := S (spy_ticks h); spy_marks := spy_marks h |}.

Definition spy_note (m : spy_mark) (h : SpyHost) : SpyHost :=
  {| spy_ticks := spy_ticks h; spy_marks := spy_marks h ++ [m] |}.

#[export] Instance SpyHost_Host : Host SpyHost := {|
  perf_counter h := (float_of_Z (Z.of_nat (spy_ticks h)), spy_tick h);
  datetime_now h := ((Z.of_nat (spy_ticks h) * 1000000)%Z, spy_tick h);
  import_module dep h := (Imported, h)
|}.

Definition spy_callback : ScanEngine.callback SpyHost :=
  fun current total label h => spy_note (Told current total label) h.

Definition spy_body (name : string)
  : float -> bool -> SpyHost -> outcome ScanResult.t * SpyHost :=
  fun _ _ h =>
    (Returned {| ScanResult.scanner_name := name;
                 ScanResult.category := "hardware";
                 ScanResult.success := true;
                 ScanResult.findings := [];
                 ScanResult.duration_ms := 0%float;
                 ScanResult.raw_data := [];
                 ScanResult.error := None;
                 ScanResult.timestamp := 0%Z |},
     spy_note (Scanned name) h).

Definition spy_world : World SpyHost :=
  {| host := {| spy_ticks := 0; spy_marks := [] |}; trace := [] |}.

(** Two scanners on the spy host, the second one stopped at the gate on
    privileges. *)
Definition spy_engine : ScanEngine.t SpyHost :=
  ScanEngine.register_scanners (ScanEngine.init false)
    [ BaseScanner.init "CPU" "hardware" "stub" false ["psutil"]
        (spy_body "CPU");
      BaseScanner.init "Firewall" "security" "stub" true []
        (spy_body "Firewall") ].

(** A host on which no module can be imported: "wmi" fails to load with
    an error of its own, every other module is missing. *)
Record LabHost : Type := mkLabHost {
  lab_ticks : nat
}.

#[export] Instance LabHost_Host : Host LabHost := {|
  perf_counter h :=
    (float_of_Z (Z.of_nat (lab_ticks h)), {| lab_ticks := S (lab_ticks h) |});
  datetime_now h :=
    ((Z.of_nat (lab_ticks h) * 1000000)%Z,
     {| lab_ticks := S (lab_ticks h) |});
  import_module dep h :=
    (if String.eqb dep "wmi" then ImportRaised "DLL load failed"
     else ImportError, h)
|}.





(** An engine whose scanners all fail: one is stopped at the gate on
    privileges, the body of the other raises. *)
Definition failing_engine : ScanEngine.t SimHost :=
  ScanEngine.register_scanners (ScanEngine.init false)
    [stub_b; stub_faulty].

(* ================================================================= *)
(** ** result.py: [to_dict] *)

Set Warnings "-register-all".

(** The values [to_dict] builds. *)
Inductive pyval : Type :=
| PyNone
| PyBool (b : bool)
| PyInt (n : Z)
| PyFloat (f : float)
| PyStr (s : string)
| PyList (xs : list pyval)
| PyDict (items : list (string * pyval)).

(** [d[k]] on a value that is a [dict]. *)
Definition py_item (d : pyval) (k : string) : option pyval :=
  match d with
  | PyDict items => dict_get items k
  | _ => None
  end.

Definition py_optional_str (o : option string) : pyval :=
  match o with Some s => PyStr s | None => PyNone end.

Definition py_str_dict (d : dict string) : pyval :=
  PyDict (map (fun kv => (fst kv, PyStr (snd kv))) d).

Section ToDict.
(** [datetime.isoformat()] *)
Variable isoformat : datetime -> string.

Definition Finding_to_dict (self : Finding.t) : pyval :=
  PyDict
    [ ("title", PyStr (Finding.title self));
      ("description", PyStr (Finding.description self));
      ("severity", PyStr (Severity_value (Finding.severity self)));
      ("category", PyStr (Finding.category self));
      ("component", py_optional_str (Finding.component self));
      ("recommendation", py_optional_str (Finding.recommendation self));
      ("details", py_str_dict (Finding.details self)) ].

Definition ScanResult_to_dict (self : ScanResult.t) : pyval :=
  PyDict
    [ ("scanner_name", PyStr (ScanResult.scanner_name self));
      ("category", PyStr (ScanResult.category self));
      ("success", PyBool (ScanResult.success self));
      ("findings", PyList (map Finding_to_dict (ScanResult.findings self)));
      ("duration_ms", PyFloat (ScanResult.duration_ms self));
      ("raw_data", py_str_dict (ScanResult.raw_data self));
      ("error", py_optional_str (ScanResult.error self));
      ("timestamp", PyStr (isoformat (ScanResult.timestamp self))) ].

(** [sum(1 for r in self.results if test(r))] *)
Definition count_results (test : ScanResult.t -> bool)
    (rs : list ScanResult.t) : nat :=
  int_sum (map (fun _ => 1) (filter test rs)).

Definition DiagnosticsReport_to_dict (self : DiagnosticsReport.t) : pyval :=
  let results := DiagnosticsReport.results self in
  PyDict
    [ ("start_time", PyStr (isoformat (DiagnosticsReport.start_time self)));
      ("end_time",
       match DiagnosticsReport.end_time self with
       | Some e => PyStr (isoformat e)
       | None => PyNone
       end);
      ("total_duration_ms",
       PyFloat (DiagnosticsReport.total_duration_ms self));
      ("summary",
       PyDict
         [ ("total_scanners", PyInt (Z.of_nat (List.length results)));
           ("successful_scans",
            PyInt (Z.of_nat (count_results ScanResult.success results)));
           ("failed_scans",
            PyInt (Z.of_nat
                     (count_results (fun r => negb (ScanResult.success r))
                        results)));
           ("critical_issues",
            PyInt (Z.of_nat (DiagnosticsReport.critical_count self)));
           ("warnings",
            PyInt (Z.of_nat (DiagnosticsReport.warning_count self)));
           ("passed",
            PyInt (Z.of_nat (DiagnosticsReport.pass_count self))) ]);
      ("system_info", py_str_dict (DiagnosticsReport.system_info self));
      ("results", PyList (map ScanResult_to_dict results)) ].
End ToDict.

(* ================================================================= *)
(** ** cli/ui/console.py: printing a report *)

(** What [console] is asked to print: a text with its style, or the
    two-column table of [print_summary]. *)
Inductive printed : Type :=
| Say (text : string) (style : option string)
| SayTable (rows : list (string * string)).

(** [str(n)] for a non-negative [int]. *)
Definition str_nat (n : nat) : string :=
  NilZero.string_of_uint (Nat.to_uint n).

(** [s * n] *)
Fixpoint str_times (s : string) (n : nat) : string :=
  match n with
  | O => ""
  | S m => s ++ str_times s m
  end.

(** Truth of an optional string: neither [None] nor empty. *)
Definition truthy (o : option string) : bool :=
  match o with
  | Some (String _ _) => true
  | _ => false
  end.

(** [SEVERITY_ICONS.get(severity, "[dim][????][/dim]")] *)
Definition SEVERITY_ICONS_get (s : Severity) : string :=
  match s with
  | PASS => "[green][PASS][/green]"
  | INFO => "[blue][INFO][/blue]"
  | WARNING => "[yellow][WARN][/yellow]"
  | CRITICAL => "[red][CRIT][/red]"
  | UNKNOWN => "[dim][????][/dim]"
  end.

Definition banner : string :=
"
+==============================================================+
|                          TCPD v1.0                           |
|          Tester's Comprehensive PC Diagnostics               |
+==============================================================+
".

Definition print_banner : list printed := [Say banner (Some "bold cyan")].

Definition print_finding (finding : Finding.t) : list printed :=
  let icon := SEVERITY_ICONS_get (Finding.severity finding) in
  [Say ("  " ++ icon ++ " " ++ Finding.title finding) None]
  ++ (if truthy (Some (Finding.description finding))
         && (Severity_eqb (Finding.severity finding) WARNING
             || Severity_eqb (Finding.severity finding) CRITICAL)
      then [Say ("      [dim]" ++ Finding.description finding ++ "[/dim]")
                None]
      else [])
  ++ (match Finding.recommendation finding with
      | Some (String c rest) =>
          [Say ("      [cyan]-> " ++ String c rest ++ "[/cyan]") None]
      | _ => []
      end).

(** The three lines on the overall status. *)
Definition line_critical : string :=
  "[red bold][!!] CRITICAL ISSUES FOUND - Immediate attention required![/red bold]".
Definition line_warnings : string :=
  "[yellow bold][!] Warnings detected - Review recommended[/yellow bold]".
Definition line_healthy : string :=
  "[green bold][OK] System appears healthy[/green bold]".

Section Console.
(** [f"{x:.0f}"] on a float, and [str.upper]. *)
Variable format_0f : float -> string.
Variable upper : string -> string.

Definition print_scan_result (result : ScanResult.t) : list printed :=
  let status :=
    if ScanResult.success result then "[green][OK][/green]"
    else "[red][X][/red]" in
  let nl := String (ascii_of_nat 10) "" in
  [Say (nl ++ status ++ " [bold]" ++ ScanResult.scanner_name result
           ++ "[/bold] (" ++ format_0f (ScanResult.duration_ms result)
           ++ "ms)") None]
  ++ (match ScanResult.error result with
      | Some (String c rest) =>
          [Say ("  [red]Error: " ++ String c rest ++ "[/red]") None]
      | _ => flat_map print_finding (ScanResult.findings result)
      end).

Definition print_category_header (category : string) : list printed :=
  let nl := String (ascii_of_nat 10) "" in
  [Say (nl ++ "[bold cyan]=== " ++ upper category ++ " ===[/bold cyan]")
       None].

(** One turn of the grouping loop of [print_report]. *)
Definition group_result (categories : dict (list ScanResult.t))
    (result : ScanResult.t) : dict (list ScanResult.t) :=
  let cat := upper (ScanResult.category result) in
  let categories :=
    match dict_get categories cat with
    | Some _ => categories
    | None => dict_set categories cat []
    end in
  match dict_get categories cat with
  | Some members => dict_set categories cat (members ++ [result])
  | None => categories
  end.

(** The [categories] of [print_report] after its grouping loop. *)
Definition group_by_category (results : list ScanResult.t)
  : dict (list ScanResult.t) :=
  fold_left group_result results [].

(** What the grouping loop keeps true of [categories] once the results
    [seen] have gone through it. *)
Definition grouped (categories : dict (list ScanResult.t))
    (seen : list ScanResult.t) : Prop :=
  Permutation (flat_map snd categories) seen
  /\ NoDup (dict_keys categories)
  /\ Forall (fun entry =>
               snd entry <> []
               /\ snd entry
                  = filter (fun y => String.eqb
                                       (upper (ScanResult.category y))
                                       (fst entry)) seen)
            categories.

(** The line on the overall status that ends [print_summary]. *)
Definition overall_status (report : DiagnosticsReport.t) : string :=
  if (0 <? DiagnosticsReport.critical_count report)%nat
  then "[red bold][!!] CRITICAL ISSUES FOUND - Immediate attention required![/red bold]"
  else if (0 <? DiagnosticsReport.warning_count report)%nat
  then "[yellow bold][!] Warnings detected - Review recommended[/yellow bold]"
  else "[green bold][OK] System appears healthy[/green bold]".

Definition print_summary (report : DiagnosticsReport.t) : list printed :=
  let nl := String (ascii_of_nat 10) "" in
  [ Say (nl ++ str_times "=" 60) None;
    Say "[bold]SUMMARY[/bold]" None;
    Say (str_times "=" 60) None;
    SayTable
      [ ("Total Scanners",
         str_nat (List.length (DiagnosticsReport.results report)));
        ("Scan Duration",
         (format_0f (DiagnosticsReport.total_duration_ms report)
            ++ "ms")%string);
        ("[green]Passed[/green]",
         ("[green]" ++ str_nat (DiagnosticsReport.pass_count report)
            ++ "[/green]")%string);
        ("[yellow]Warnings[/yellow]",
         ("[yellow]" ++ str_nat (DiagnosticsReport.warning_count report)
            ++ "[/yellow]")%string);
        ("[red]Critical[/red]",
         ("[red]" ++ str_nat (DiagnosticsReport.critical_count report)
            ++ "[/red]")%string) ];
    Say "" None;
    Say (overall_status report) None;
    Say "" None ].

Definition print_report (report : DiagnosticsReport.t) : list printed :=
  [Say "" None]
  ++ print_banner
  ++ flat_map (fun entry =>
                 print_category_header (fst entry)
                 ++ flat_map print_scan_result (snd entry))
              (group_by_category (DiagnosticsReport.results report))
  ++ print_summary report.
End Console.

(* ================================================================= *)
(** ** cli/ui/export.py: the rows of the CSV export *)

Section CsvExport.
Variable isoformat : datetime -> string.

Definition csv_header : list string :=
  ["Scanner"; "Category"; "Severity"; "Title"; "Description";
   "Recommendation"; "Component"; "Timestamp"].

(** [x or ''] *)
Definition or_empty (o : option string) : string :=
  match o with Some s => s | None => "" end.

(** The rows [export_to_csv] hands to [writer.writerow], in order. *)
Definition export_to_csv_rows (report : DiagnosticsReport.t)
  : list (list string) :=
  csv_header
  :: flat_map
       (fun result =>
          map (fun finding =>
                 [ ScanResult.scanner_name result;
                   Finding.category finding;
                   Severity_value (Finding.severity finding);
                   Finding.title finding;
                   Finding.description finding;
                   or_empty (Finding.recommendation finding);
                   or_empty (Finding.component finding);
                   isoformat (ScanResult.timestamp result) ])
              (ScanResult.findings result))
       (DiagnosticsReport.results report).
End CsvExport.

(* ================================================================= *)
(** ** The state monad and the record of calls *)

Section MonadFacts.
Context {H : Type} `{Host H}.

Lemma bind_eq A B (m : M H A) (k : A -> M H B) w :
  bind m k w = k (fst (m w)) (snd (m w)).
Proof. unfold bind. destruct (m w); reflexivity. Qed.

Lemma events_of_adds A (m : M H A) w evs :
  adds m w evs -> events_of m w = evs.
Proof.
  unfold adds, events_of. intros ->.
  rewrite skipn_app, skipn_all, Nat.sub_diag. reflexivity.
Qed.

Lemma quiet_adds A (m : M H A) w : quiet m -> adds m w [].
Proof. unfold quiet, adds. intros Hq. rewrite Hq, app_nil_r. reflexivity. Qed.

Lemma adds_emit e (w : World H) : adds (emit e) w [e].
Proof. reflexivity. Qed.

Lemma adds_bind A B (m : M H A) (k : A -> M H B) w e1 e2 :
  adds m w e1 ->
  adds (k (fst (m w))) (snd (m w)) e2 ->
  adds (bind m k) w (e1 ++ e2).
Proof.
  unfold adds. rewrite bind_eq. intros H1 H2.
  rewrite H2, H1, app_assoc. reflexivity.
Qed.

Lemma quiet_ret A (a : A) : quiet (ret (H := H) a).
Proof. intros w. reflexivity. Qed.

Lemma quiet_lift A (f : H -> A * H) : quiet (lift f).
Proof. intros w. unfold lift. destruct (f (host w)). reflexivity. Qed.

Lemma quiet_bind A B (m : M H A) (k : A -> M H B) :
  quiet m -> (forall a, quiet (k a)) -> quiet (bind m k).
Proof.
  intros Hm Hk w. rewrite bind_eq, Hk, Hm. reflexivity.
Qed.

Lemma check_dependencies_quiet deps :
  quiet (BaseScanner._check_dependencies_from deps).
Proof.
  induction deps as [|dep rest IH]; simpl.
  - apply quiet_ret.
  - apply quiet_bind; [apply quiet_lift|].
    intros [ | |e]; auto using quiet_ret.
Qed.

Lemma is_available_quiet s : quiet (BaseScanner.is_available s).
Proof.
  unfold BaseScanner.is_available.
  destruct (_ && _); [apply quiet_ret | apply check_dependencies_quiet].
Qed.

Lemma elapsed_ms_quiet t0 : quiet (BaseScanner._elapsed_ms t0).
Proof.
  apply quiet_bind; [apply quiet_lift | intros; apply quiet_ret].
Qed.

Lemma failure_result_quiet s t0 e : quiet (BaseScanner.failure_result s t0 e).
Proof.
  apply quiet_bind; [apply elapsed_ms_quiet|]. intros d.
  apply quiet_bind; [apply quiet_lift | intros; apply quiet_ret].
Qed.

Lemma report_init_quiet : quiet DiagnosticsReport.init.
Proof.
  apply quiet_bind; [apply quiet_lift | intros; apply quiet_ret].
Qed.

Lemma finalize_quiet r : quiet (DiagnosticsReport.finalize r).
Proof.
  apply quiet_bind; [apply quiet_lift | intros; apply quiet_ret].
Qed.

Lemma adds_notify (cb : option (ScanEngine.callback H)) i total label w :
  adds (ScanEngine.notify cb i total label) w
       (notify_events cb i total label).
Proof.
  destruct cb as [f|]; simpl.
  - change [EvProgress i total label]
      with ([EvProgress i total label] ++ []).
    apply adds_bind; [apply adds_emit|].
    apply quiet_adds, quiet_lift.
  - apply quiet_adds, quiet_ret.
Qed.
End MonadFacts.

(* ================================================================= *)
(** ** The wrapper [run] *)

Section WrapperFacts.
Context {H : Type} `{Host H}.

(** [run] by cases on what the availability check and the body leave. *)
Lemma run_unfold (s : BaseScanner.t H) (w : World H) :
  let w1 := snd (emit (EvRun (BaseScanner.name s)) w) in
  let p := lift perf_counter w1 in
  let a := BaseScanner.is_available s (snd p) in
  BaseScanner.run s w =
  match fst a with
  | Raised e => BaseScanner.failure_result s (fst p) e (snd a)
  | Returned false =>
      BaseScanner.failure_result s (fst p)
        BaseScanner.not_available_error (snd a)
  | Returned true =>
      let w4 := snd (emit (EvScan (BaseScanner.name s)) (snd a)) in
      let r := lift (BaseScanner.scan s (fst p) (BaseScanner._is_admin s)) w4 in
      match fst r with
      | Raised e => BaseScanner.failure_result s (fst p) e (snd r)
      | Returned result =>
          bind (BaseScanner._elapsed_ms (fst p))
               (fun d => ret (ScanResult.set_duration_ms result d)) (snd r)
      end
  end.
Proof.
  intros w1 p a. unfold BaseScanner.run.
  rewrite !bind_eq. fold w1. fold p. fold a.
  destruct (fst a) as [[|]|e]; try reflexivity.
  rewrite !bind_eq. cbv zeta.
  destruct (fst (lift _ _)); reflexivity.
Qed.

(** The gate on privileges answers before any dependency is imported. *)
Lemma is_available_gated (s : BaseScanner.t H) w :
  admin_gated s = true ->
  BaseScanner.is_available s w = (Returned false, w).
Proof.
  unfold admin_gated, BaseScanner.is_available. intros ->. reflexivity.
Qed.

Lemma failure_result_fields (s : BaseScanner.t H) t0 e w :
  let r := fst (BaseScanner.failure_result s t0 e w) in
  ScanResult.scanner_name r = BaseScanner.name s
  /\ ScanResult.category r = BaseScanner.category s
  /\ ScanResult.success r = false
  /\ ScanResult.findings r = []
  /\ ScanResult.error r = Some e.
Proof.
  unfold BaseScanner.failure_result. rewrite !bind_eq. simpl. auto.
Qed.

Lemma run_adds (s : BaseScanner.t H) w :
  exists scanned,
    adds (BaseScanner.run s) w (EvRun (BaseScanner.name s) :: scanned)
    /\ (scanned = [] \/ scanned = [EvScan (BaseScanner.name s)])
    /\ (admin_gated s = true -> scanned = []).
Proof.
  unfold adds. rewrite run_unfold. cbv zeta.
  set (w1 := snd (emit (EvRun (BaseScanner.name s)) w)).
  set (p := lift perf_counter w1).
  assert (Hp : trace (snd p) = trace w ++ [EvRun (BaseScanner.name s)])
    by (unfold p; rewrite quiet_lift; reflexivity).
  pose proof (is_available_quiet s (snd p)) as Ha.
  destruct (fst (BaseScanner.is_available s (snd p))) as [[|]|e] eqn:Eav.
  - exists [EvScan (BaseScanner.name s)]. split; [|split]; auto.
    + set (r := lift _ _).
      assert (Hr : trace (snd r) =
                   trace w ++ [EvRun (BaseScanner.name s);
                               EvScan (BaseScanner.name s)]).
      { unfold r. rewrite quiet_lift. simpl. rewrite Ha, Hp, <- app_assoc.
        reflexivity. }
      destruct (fst r).
      * rewrite quiet_bind; auto using elapsed_ms_quiet, quiet_ret.
      * rewrite failure_result_quiet; auto.
    + intros Hg. rewrite (is_available_gated s _ Hg) in Eav. discriminate.
  - exists []. rewrite failure_result_quiet, Ha, Hp. auto.
  - exists []. rewrite failure_result_quiet, Ha, Hp. auto.
Qed.
End WrapperFacts.

(* ================================================================= *)
(** ** The loop of [run_scan] *)

Section LoopFacts.
Context {H : Type} `{Host H}.

Lemma scan_loop_spec (cb : option (ScanEngine.callback H)) total ss :
  forall i rep w,
  exists rs evs,
    fst (ScanEngine.scan_loop cb total i ss rep w) =
      {| DiagnosticsReport.results := DiagnosticsReport.results rep ++ rs;
         DiagnosticsReport.start_time := DiagnosticsReport.start_time rep;
         DiagnosticsReport.end_time := DiagnosticsReport.end_time rep;
         DiagnosticsReport.system_info := DiagnosticsReport.system_info rep |}
    /\ Forall2 run_result_of ss rs
    /\ adds (ScanEngine.scan_loop cb total i ss rep) w evs
    /\ loop_events cb total i ss evs.
Proof.
  induction ss as [|s rest IH]; intros i rep w.
  - exists [], []. simpl. repeat split.
    + rewrite app_nil_r. destruct rep; reflexivity.
    + constructor.
    + apply quiet_adds, quiet_ret.
    + constructor.
  - set (n := ScanEngine.notify cb i total (BaseScanner.name s)).
    set (w1 := snd (n w)).
    destruct (run_adds s w1) as (scanned & Hrun & Hsc & Hg).
    set (result := fst (BaseScanner.run s w1)).
    set (w2 := snd (BaseScanner.run s w1)).
    destruct (IH (S i) (DiagnosticsReport.add_result rep result) w2)
      as (rs & evs & Hfst & HF & Ha & Hl).
    exists (result :: rs),
      (notify_events cb i total (BaseScanner.name s)
         ++ EvRun (BaseScanner.name s) :: scanned ++ evs).
    repeat split.
    + simpl ScanEngine.scan_loop. rewrite !bind_eq.
      fold n. fold w1. fold result. fold w2. rewrite Hfst. simpl.
      rewrite <- app_assoc. reflexivity.
    + constructor; [exists w1; reflexivity | exact HF].
    + simpl ScanEngine.scan_loop.
      apply adds_bind; [apply adds_notify|].
      change (EvRun (BaseScanner.name s) :: scanned ++ evs)
        with ((EvRun (BaseScanner.name s) :: scanned) ++ evs).
      apply adds_bind; [exact Hrun | exact Ha].
    + constructor; assumption.
Qed.

Lemma loop_events_protocol (f : ScanEngine.callback H) total i ss evs :
  loop_events (Some f) total i ss evs ->
  filter (fun e => negb (is_scan e)) evs = progress_protocol total i ss.
Proof.
  induction 1 as [|i s rest scanned evs Hsc _ _ IH]; [reflexivity|].
  simpl. rewrite filter_app, IH.
  destruct Hsc as [-> | ->]; reflexivity.
Qed.


Lemma loop_events_progress (f : ScanEngine.callback H) total i ss evs :
  loop_events (Some f) total i ss evs ->
  filter is_progress evs =
  map (fun js => EvProgress (fst js) total (BaseScanner.name (snd js)))
      (combine (seq i (List.length ss)) ss).
Proof.
  induction 1 as [|i s rest scanned evs Hsc _ _ IH]; [reflexivity|].
  simpl. rewrite filter_app, IH.
  destruct Hsc as [-> | ->]; reflexivity.
Qed.


(** What [run_scan] returns and adds to the record. *)
Lemma run_scan_spec (e : ScanEngine.t H) mode cb w :
  let selected := ScanEngine.get_scanners_for_mode e mode in
  let total := List.length selected in
  exists rs evs now1,
    fst (ScanEngine.run_scan e mode cb w) =
      ({| DiagnosticsReport.results := rs;
          DiagnosticsReport.start_time := fst (datetime_now (host w));
          DiagnosticsReport.end_time := Some now1;
          DiagnosticsReport.system_info := [] |},
       {| ScanEngine.is_admin := ScanEngine.is_admin e;
          ScanEngine._scanners := ScanEngine._scanners e;
          ScanEngine._report :=
            Some {| DiagnosticsReport.results := rs;
                    DiagnosticsReport.start_time :=
                      fst (datetime_now (host w));
                    DiagnosticsReport.end_time := Some now1;
                    DiagnosticsReport.system_info := [] |} |})
    /\ Forall2 run_result_of selected rs
    /\ adds (ScanEngine.run_scan e mode cb) w
            (evs ++ notify_events cb total total "Complete")
    /\ loop_events cb total 0 selected evs.
Proof.
  intros selected total.
  set (w0 := snd (DiagnosticsReport.init w)).
  set (rep0 := fst (DiagnosticsReport.init w)).
  destruct (scan_loop_spec cb total selected 0 rep0 w0)
    as (rs & evs & Hfst & HF & Ha & Hl).
  set (l := ScanEngine.scan_loop cb total 0 selected rep0 w0) in *.
  exists rs, evs, (fst (datetime_now (host (snd l)))).
  assert (Hrep0 : rep0 =
            {| DiagnosticsReport.results := [];
               DiagnosticsReport.start_time := fst (datetime_now (host w));
               DiagnosticsReport.end_time := None;
               DiagnosticsReport.system_info := [] |}).
  { unfold rep0, DiagnosticsReport.init. rewrite bind_eq. simpl.
    unfold lift. destruct (datetime_now (host w)); reflexivity. }
  repeat split; try assumption.
  - unfold ScanEngine.run_scan. rewrite !bind_eq.
    fold rep0. fold w0. fold selected. fold total. fold l.
    simpl. unfold DiagnosticsReport.finalize. rewrite !bind_eq. simpl.
    rewrite Hfst, Hrep0. simpl.
    unfold lift. destruct (datetime_now (host (snd l))); reflexivity.
  - unfold ScanEngine.run_scan.
    change (evs ++ notify_events cb total total "Complete")
      with ([] ++ evs ++ notify_events cb total total "Complete").
    apply adds_bind; [apply quiet_adds, report_init_quiet|].
    fold rep0. fold w0. fold selected. fold total.
    apply adds_bind; [exact Ha|].
    change (notify_events cb total total "Complete")
      with ([] ++ notify_events cb total total "Complete").
    apply adds_bind; [apply quiet_adds, finalize_quiet|].
    rewrite <- (app_nil_r (notify_events cb total total "Complete")).
    apply adds_bind; [apply adds_notify|].
    apply quiet_adds, quiet_ret.
Qed.
End LoopFacts.

(* ================================================================= *)
(** ** The registry and the mode filter *)

Section RegistryFacts.
Context {H : Type} `{Host H}.

Lemma dict_set_Forall V (P : string * V -> Prop) d k v :
  Forall P d -> P (k, v) -> Forall P (dict_set d k v).
Proof.
  intros Hd Hkv. induction Hd as [|[k' v'] rest Hx Hrest IH]; simpl.
  - constructor; [exact Hkv | constructor].
  - destruct (String.eqb k k') eqn:E.
    + apply String.eqb_eq in E. subst k'. constructor; assumption.
    + constructor; assumption.
Qed.

Lemma dict_set_keys_In V (d : dict V) k v x :
  In x (dict_keys (dict_set d k v)) -> x = k \/ In x (dict_keys d).
Proof.
  induction d as [|[k' v'] rest IH]; simpl.
  - intros [<- | []]. auto.
  - destruct (String.eqb k k'); simpl; intros [Hx | Hx]; auto.
    destruct (IH Hx); auto.
Qed.

Lemma dict_set_keys_NoDup V (d : dict V) k v :
  NoDup (dict_keys d) -> NoDup (dict_keys (dict_set d k v)).
Proof.
  induction d as [|[k' v'] rest IH]; simpl; intros Hnd.
  - constructor; [intros [] | constructor].
  - inversion Hnd as [|? ? Hnotin Hrest]; subst.
    destruct (String.eqb k k') eqn:E; simpl.
    + constructor; assumption.
    + constructor; [|apply IH; exact Hrest].
      intros Hin. apply dict_set_keys_In in Hin. destruct Hin as [-> | Hin].
      * rewrite String.eqb_refl in E. discriminate.
      * contradiction.
Qed.

Lemma dict_set_fresh V (d : dict V) k v :
  ~ In k (dict_keys d) -> dict_set d k v = d ++ [(k, v)].
Proof.
  induction d as [|[k' v'] rest IH]; simpl; intros Hk; [reflexivity|].
  destruct (String.eqb k k') eqn:E.
  - apply String.eqb_eq in E. subst. exfalso. auto.
  - rewrite IH; auto.
Qed.

Lemma register_scanner_ok (e : ScanEngine.t H) s :
  registry_ok e -> registry_ok (ScanEngine.register_scanner e s).
Proof.
  intros [Hall Hnd]. split; simpl.
  - apply dict_set_Forall; [exact Hall | simpl; auto].
  - apply dict_set_keys_NoDup. exact Hnd.
Qed.

Lemma built_registry_ok (e : ScanEngine.t H) : built e -> registry_ok e.
Proof.
  induction 1 as [a | e s _ IH | e mode cb w _ IH].
  - split; simpl; constructor.
  - apply register_scanner_ok. exact IH.
  - destruct (run_scan_spec e mode cb w) as (rs & evs & now1 & Hfst & _).
    rewrite Hfst. exact IH.
Qed.

Lemma register_scanners_built (e : ScanEngine.t H) ss :
  built e -> built (ScanEngine.register_scanners e ss).
Proof.
  revert e. induction ss as [|s rest IH]; intros e He; simpl; auto.
  apply IH. constructor. exact He.
Qed.

(** Registration under pairwise distinct fresh keys appends in order. *)
Lemma register_scanners_fresh (e : ScanEngine.t H) ss :
  NoDup (dict_keys (ScanEngine._scanners e) ++ map key_of ss) ->
  ScanEngine._scanners (ScanEngine.register_scanners e ss) =
  ScanEngine._scanners e ++
  map (fun s => (key_of s,
                 BaseScanner.set_admin_status s (ScanEngine.is_admin e))) ss.
Proof.
  revert e. induction ss as [|s rest IH]; intros e Hnd; simpl.
  - rewrite app_nil_r. reflexivity.
  - assert (Hfresh : ~ In (key_of s) (dict_keys (ScanEngine._scanners e))).
    { intros Hin. apply NoDup_remove_2 in Hnd. apply Hnd.
      apply in_or_app. left. exact Hin. }
    rewrite IH; simpl.
    + fold (key_of s). rewrite (dict_set_fresh _ _ _ Hfresh), <- app_assoc.
      reflexivity.
    + fold (key_of s). rewrite (dict_set_fresh _ _ _ Hfresh).
      unfold dict_keys in *. rewrite map_app, <- app_assoc. exact Hnd.
Qed.

Lemma filter_allowed_filter allowed (items : dict (BaseScanner.t H)) :
  ScanEngine.filter_allowed allowed items =
  map snd (filter (allowed_entry allowed) items).
Proof.
  induction items as [|[k s] rest IH]; simpl; [reflexivity|].
  unfold allowed_entry at 1. simpl. rewrite IH.
  destruct (_ || _); reflexivity.
Qed.

Lemma filter_allowed_In allowed (items : dict (BaseScanner.t H)) s :
  In s (ScanEngine.filter_allowed allowed items) <->
  exists k, In (k, s) items /\ allowed_entry allowed (k, s) = true.
Proof.
  rewrite filter_allowed_filter, in_map_iff. split.
  - intros ([k s'] & Hs & Hin). simpl in Hs. subst s'.
    apply filter_In in Hin. exists k. exact Hin.
  - intros (k & Hin & Hok). exists (k, s). split; [reflexivity|].
    apply filter_In. auto.
Qed.

Lemma get_scanners_registered (e : ScanEngine.t H) mode s :
  In s (ScanEngine.get_scanners_for_mode e mode) ->
  In s (dict_values (ScanEngine._scanners e)).
Proof.
  unfold ScanEngine.get_scanners_for_mode.
  destruct (ScanEngine.MODES_get mode) as [allowed|]; [|auto].
  intros Hin. apply filter_allowed_In in Hin. destruct Hin as (k & Hin & _).
  apply in_map_iff. exists (k, s). auto.
Qed.

End RegistryFacts.

(* ================================================================= *)
(** ** Counting *)

Section CountingFacts.

Lemma int_sum_from xs a : fold_left Nat.add xs a = a + int_sum xs.
Proof.
  unfold int_sum. revert a.
  induction xs as [|x rest IH]; intros a; simpl; [lia|].
  rewrite (IH (a + x)), (IH x). lia.
Qed.

Lemma int_sum_cons x xs : int_sum (x :: xs) = x + int_sum xs.
Proof. unfold int_sum at 1. simpl. apply int_sum_from. Qed.

Lemma count_severity_length level fs :
  ScanResult.count_severity level fs =
  List.length (filter (fun f => Severity_eqb (Finding.severity f) level) fs).
Proof.
  unfold ScanResult.count_severity.
  induction (filter _ fs) as [|f rest IH]; [reflexivity|].
  simpl map. rewrite int_sum_cons, IH. reflexivity.
Qed.

Lemma sum_counts_all_findings level rs :
  int_sum (map (fun r => ScanResult.count_severity level
                           (ScanResult.findings r)) rs) =
  List.length (filter (fun f => Severity_eqb (Finding.severity f) level)
                 (flat_map ScanResult.findings rs)).
Proof.
  induction rs as [|r rest IH]; [reflexivity|].
  simpl. rewrite int_sum_cons, IH, filter_app, length_app,
    count_severity_length.
  reflexivity.
Qed.

Lemma filter_classified level fs :
  level = CRITICAL \/ level = WARNING \/ level = PASS ->
  filter (fun f => Severity_eqb (Finding.severity f) level)
    (filter (fun f => match Finding.severity f with
                      | INFO | UNKNOWN => false
                      | _ => true
                      end) fs) =
  filter (fun f => Severity_eqb (Finding.severity f) level) fs.
Proof.
  intros Hl. induction fs as [|f rest IH]; [reflexivity|].
  simpl. destruct (Finding.severity f) eqn:E; simpl; rewrite ?E, IH;
    try reflexivity;
    destruct Hl as [-> | [-> | ->]]; reflexivity.
Qed.
End CountingFacts.

(* ================================================================= *)
(** ** Properties of the data model (result.py) *)

(** C8: the three derived counts of a report are the numbers of findings,
    over all its results, at exactly CRITICAL, WARNING and PASS; findings
    at INFO and UNKNOWN change none of them. *)
Theorem C8_severity_counts (r : DiagnosticsReport.t) :
  let at_level level :=
    List.length (filter (fun f => Severity_eqb (Finding.severity f) level)
                   (DiagnosticsReport.all_findings r)) in
  DiagnosticsReport.critical_count r = at_level CRITICAL
  /\ DiagnosticsReport.warning_count r = at_level WARNING
  /\ DiagnosticsReport.pass_count r = at_level PASS
  /\ DiagnosticsReport.critical_count (classified_only r)
     = DiagnosticsReport.critical_count r
  /\ DiagnosticsReport.warning_count (classified_only r)
     = DiagnosticsReport.warning_count r
  /\ DiagnosticsReport.pass_count (classified_only r)
     = DiagnosticsReport.pass_count r.
Proof.
  assert (Hc : forall level r',
    int_sum (map (fun x => ScanResult.count_severity level
                             (ScanResult.findings x))
               (DiagnosticsReport.results r')) =
    List.length (filter (fun f => Severity_eqb (Finding.severity f) level)
                   (DiagnosticsReport.all_findings r')))
    by (intros; apply sum_counts_all_findings).
  assert (Hk : forall level,
    level = CRITICAL \/ level = WARNING \/ level = PASS ->
    List.length (filter (fun f => Severity_eqb (Finding.severity f) level)
                   (DiagnosticsReport.all_findings (classified_only r))) =
    List.length (filter (fun f => Severity_eqb (Finding.severity f) level)
                   (DiagnosticsReport.all_findings r))).
  { intros level Hl. unfold DiagnosticsReport.all_findings, classified_only.
    simpl. induction (DiagnosticsReport.results r) as [|x rest IH];
      [reflexivity|].
    simpl. rewrite !filter_app, !length_app, IH, (filter_classified _ Hl).
    reflexivity. }
  cbv zeta.
  unfold DiagnosticsReport.critical_count, DiagnosticsReport.warning_count,
    DiagnosticsReport.pass_count, ScanResult.critical_count,
    ScanResult.warning_count, ScanResult.pass_count.
  rewrite !Hc, !Hk; auto 6.
Qed.

Example sample_report_counts :
  DiagnosticsReport.critical_count sample_report = 2
  /\ DiagnosticsReport.warning_count sample_report = 3
  /\ DiagnosticsReport.pass_count sample_report = 5.
Proof. repeat split; reflexivity. Qed.

(** C9: the total duration of a finalized report is its end time less its
    start time, in milliseconds; that of a report not yet finalized is the
    sum of the durations of its results; [finalize] stamps the end time. *)
Theorem C9_total_duration :
  (forall rs start e info,
     DiagnosticsReport.total_duration_ms
       (DiagnosticsReport.mk rs start (Some e) info)
     = PrimFloat.mul (total_seconds (e - start)%Z) 1000%float)
  /\ (forall rs start info,
        DiagnosticsReport.total_duration_ms
          (DiagnosticsReport.mk rs start None info)
        = float_sum (map ScanResult.duration_ms rs))
  /\ (forall (H : Type) (HH : Host H) (r : DiagnosticsReport.t)
        (w : World H),
        let now := fst (datetime_now (host w)) in
        let sealed := fst (DiagnosticsReport.finalize r w) in
        DiagnosticsReport.end_time sealed = Some now
        /\ DiagnosticsReport.results sealed = DiagnosticsReport.results r
        /\ DiagnosticsReport.total_duration_ms sealed
           = PrimFloat.mul
               (total_seconds (now - DiagnosticsReport.start_time r)%Z)
               1000%float).
Proof.
  split; [|split]; try reflexivity.
  intros H HH r w now sealed. subst now sealed.
  unfold DiagnosticsReport.finalize. rewrite bind_eq.
  unfold lift. destruct (datetime_now (host w)) as [now h]. simpl.
  repeat split; reflexivity.
Qed.

Example sample_report_durations :
  DiagnosticsReport.total_duration_ms sample_report = 3.75%float
  /\ DiagnosticsReport.total_duration_ms
       (fst (DiagnosticsReport.finalize sample_report
               {| host := {| ticks := 3; installed := [] |};
                  trace := [] |}))
     = 2000%float.
Proof. split; vm_compute; reflexivity. Qed.

(* ================================================================= *)
(** ** Properties of the wrapper (scanner.py) *)

Section WrapperProperties.
Context {H : Type} `{Host H}.

(** [run] by cases on the stages of the call. *)
Lemma run_cases (s : BaseScanner.t H) (w : World H) :
  BaseScanner.run s w =
  match fst (checked s w) with
  | Raised e =>
      BaseScanner.failure_result s (fst (started s w)) e (snd (checked s w))
  | Returned false =>
      BaseScanner.failure_result s (fst (started s w))
        BaseScanner.not_available_error (snd (checked s w))
  | Returned true =>
      match fst (scanned s w) with
      | Raised e =>
          BaseScanner.failure_result s (fst (started s w)) e
            (snd (scanned s w))
      | Returned result =>
          bind (BaseScanner._elapsed_ms (fst (started s w)))
               (fun d => ret (ScanResult.set_duration_ms result d))
               (snd (scanned s w))
      end
  end.
Proof. apply run_unfold. Qed.


Lemma run_raised (s : BaseScanner.t H) (w : World H) str_e :
  scan_raises_in s w str_e ->
  let r := fst (BaseScanner.run s w) in
  ScanResult.scanner_name r = BaseScanner.name s
  /\ ScanResult.category r = BaseScanner.category s
  /\ ScanResult.success r = false
  /\ ScanResult.findings r = []
  /\ ScanResult.error r = Some str_e.
Proof.
  intros [Hav Hsc] r. subst r. rewrite run_cases, Hav, Hsc.
  apply failure_result_fields.
Qed.

Lemma run_returned (s : BaseScanner.t H) (w : World H) result :
  scan_returns_in s w result ->
  fst (BaseScanner.run s w)
  = ScanResult.set_duration_ms result (measured_ms s w).
Proof.
  intros [Hav Hsc]. rewrite run_cases, Hav, Hsc.
  unfold BaseScanner._elapsed_ms. rewrite !bind_eq. simpl.
  unfold measured_ms, lift.
  destruct (perf_counter (host (snd (scanned s w)))); reflexivity.
Qed.

End WrapperProperties.

(* ================================================================= *)
(** ** The trace and the marks on the host *)

Section TrackingFacts.
Context {H : Type} `{Host H}.
Variable X : Type.
Variable obs : H -> list X.
Variable told : nat -> nat -> string -> X.
Variable mark : string -> list X.
Hypothesis services : services_keep_marks obs.

Lemma snd_lift A (f : H -> A * H) (w : World H) :
  host (snd (lift f w)) = snd (f (host w)).
Proof. unfold lift. destruct (f (host w)); reflexivity. Qed.

Lemma tracked_ret A (a : A) : tracked obs told mark (ret (H := H) a).
Proof.
  intros w.
  assert (Ha : adds (ret a) w []) by apply quiet_adds, quiet_ret.
  rewrite (events_of_adds Ha). split; [exact Ha|].
  simpl. rewrite app_nil_r. reflexivity.
Qed.

Lemma tracked_lift A (f : H -> A * H) :
  (forall h, obs (snd (f h)) = obs h) -> tracked obs told mark (lift f).
Proof.
  intros Hf w.
  assert (Ha : adds (lift f) w []) by apply quiet_adds, quiet_lift.
  rewrite (events_of_adds Ha). split; [exact Ha|].
  rewrite snd_lift, Hf. simpl. rewrite app_nil_r. reflexivity.
Qed.

Lemma tracked_bind A B (m : M H A) (k : A -> M H B) :
  tracked obs told mark m ->
  (forall a, tracked obs told mark (k a)) ->
  tracked obs told mark (bind m k).
Proof.
  intros Hm Hk w.
  destruct (Hm w) as [Ha1 Ho1].
  destruct (Hk (fst (m w)) (snd (m w))) as [Ha2 Ho2].
  pose proof (adds_bind k Ha1 Ha2) as Ha.
  rewrite (events_of_adds Ha). split; [exact Ha|].
  rewrite bind_eq, Ho2, Ho1, flat_map_app, app_assoc. reflexivity.
Qed.

Lemma tracked_emit_run n : tracked obs told mark (emit (H := H) (EvRun n)).
Proof.
  intros w.
  rewrite (events_of_adds (adds_emit (EvRun n) w)).
  split; [apply adds_emit|]. simpl. rewrite app_nil_r. reflexivity.
Qed.

(** [notify] leaves the mark of the call it records. *)
Lemma tracked_notify (cb : option (ScanEngine.callback H)) c t l :
  (forall f, cb = Some f -> consumer_marks obs told f) ->
  tracked obs told mark (ScanEngine.notify cb c t l).
Proof.
  intros Hcb. destruct cb as [f|]; [|apply tracked_ret].
  intros w.
  pose proof (adds_notify (Some f) c t l w) as Ha.
  rewrite (events_of_adds Ha). split; [exact Ha|].
  unfold ScanEngine.notify. rewrite bind_eq, snd_lift. simpl.
  apply (Hcb f eq_refl).
Qed.

(** The entry into a body and the call of the body go together. *)
Lemma tracked_scan_entry A B n (g : H -> A * H) (k : A -> M H B) :
  (forall h, obs (snd (g h)) = obs h ++ mark n) ->
  (forall a, tracked obs told mark (k a)) ->
  tracked obs told mark (bind (emit (EvScan n)) (fun _ => bind (lift g) k)).
Proof.
  intros Hg Hk w.
  set (w1 := snd (emit (EvScan n) w)).
  set (w2 := snd (lift g w1)).
  destruct (Hk (fst (lift g w1)) w2) as [Ha2 Ho2].
  assert (Ha : adds (bind (emit (EvScan n)) (fun _ => bind (lift g) k)) w
                 ([EvScan n] ++ [] ++ events_of (k (fst (lift g w1))) w2)).
  { apply adds_bind; [apply adds_emit|].
    apply adds_bind; [apply quiet_adds, quiet_lift | exact Ha2]. }
  rewrite (events_of_adds Ha). split; [exact Ha|].
  rewrite !bind_eq. fold w1. fold w2. rewrite Ho2.
  unfold w2. rewrite snd_lift, Hg. simpl. rewrite <- app_assoc.
  reflexivity.
Qed.

Lemma tracked_check_dependencies deps :
  tracked obs told mark (BaseScanner._check_dependencies_from deps).
Proof.
  destruct services as (_ & _ & Himp).
  induction deps as [|dep rest IH]; simpl.
  - apply tracked_ret.
  - apply tracked_bind; [apply tracked_lift, Himp|].
    intros [ | |e]; auto using tracked_ret.
Qed.

Lemma tracked_is_available s :
  tracked obs told mark (BaseScanner.is_available s).
Proof.
  unfold BaseScanner.is_available.
  destruct (_ && _); [apply tracked_ret | apply tracked_check_dependencies].
Qed.

Lemma tracked_elapsed_ms t0 :
  tracked obs told mark (BaseScanner._elapsed_ms t0).
Proof.
  destruct services as (Hperf & _).
  apply tracked_bind; [apply tracked_lift, Hperf|].
  intros; apply tracked_ret.
Qed.

Lemma tracked_failure_result s t0 e :
  tracked obs told mark (BaseScanner.failure_result s t0 e).
Proof.
  destruct services as (_ & Hnow & _).
  apply tracked_bind; [apply tracked_elapsed_ms|]. intros d.
  apply tracked_bind; [apply tracked_lift, Hnow|].
  intros; apply tracked_ret.
Qed.

Lemma tracked_run s :
  body_marks obs mark s -> tracked obs told mark (BaseScanner.run s).
Proof.
  intros Hbody. destruct services as (Hperf & _).
  unfold BaseScanner.run.
  apply tracked_bind; [apply tracked_emit_run|]. intros _.
  apply tracked_bind; [apply tracked_lift, Hperf|]. intros t0.
  apply tracked_bind; [apply tracked_is_available|].
  intros [[|]|e]; try apply tracked_failure_result.
  apply tracked_scan_entry; [apply Hbody|].
  intros [result|e]; [|apply tracked_failure_result].
  apply tracked_bind; [apply tracked_elapsed_ms|].
  intros; apply tracked_ret.
Qed.

Lemma tracked_scan_loop (cb : option (ScanEngine.callback H)) total ss :
  (forall f, cb = Some f -> consumer_marks obs told f) ->
  (forall s, In s ss -> body_marks obs mark s) ->
  forall i rep, tracked obs told mark (ScanEngine.scan_loop cb total i ss rep).
Proof.
  intros Hcb. induction ss as [|s rest IH]; intros Hbodies i rep; simpl.
  - apply tracked_ret.
  - apply tracked_bind; [apply tracked_notify, Hcb|]. intros _.
    apply tracked_bind; [apply tracked_run, Hbodies; left; reflexivity|].
    intros result. apply IH. intros s' Hs'. apply Hbodies. right. exact Hs'.
Qed.

Lemma tracked_run_scan (e : ScanEngine.t H) mode
    (cb : option (ScanEngine.callback H)) :
  (forall f, cb = Some f -> consumer_marks obs told f) ->
  (forall s, In s (ScanEngine.get_scanners_for_mode e mode) ->
             body_marks obs mark s) ->
  tracked obs told mark (ScanEngine.run_scan e mode cb).
Proof.
  intros Hcb Hbodies. destruct services as (_ & Hnow & _).
  unfold ScanEngine.run_scan, DiagnosticsReport.init,
    DiagnosticsReport.finalize.
  apply tracked_bind.
  { apply tracked_bind; [apply tracked_lift, Hnow|].
    intros; apply tracked_ret. }
  intros rep0.
  apply tracked_bind; [apply tracked_scan_loop; assumption|]. intros rep1.
  apply tracked_bind.
  { apply tracked_bind; [apply tracked_lift, Hnow|].
    intros; apply tracked_ret. }
  intros rep2.
  apply tracked_bind; [apply tracked_notify, Hcb|].
  intros; apply tracked_ret.
Qed.

(** Where the bodies leave no mark, the marks of the loop are those of
    the consumer: one per scanner, in order. *)
Lemma loop_events_told (f : ScanEngine.callback H) total i ss evs :
  (forall n, mark n = []) ->
  loop_events (Some f) total i ss evs ->
  flat_map (view told mark) evs
  = map (fun js => told (fst js) total (BaseScanner.name (snd js)))
        (combine (seq i (List.length ss)) ss).
Proof.
  intros Hmark.
  induction 1 as [|i s rest scanned evs Hsc _ _ IH]; [reflexivity|].
  simpl. rewrite flat_map_app, IH.
  destruct Hsc as [-> | ->]; simpl; rewrite ?Hmark; reflexivity.
Qed.
End TrackingFacts.

(* ================================================================= *)
(** ** Properties of the engine (engine.py) *)

Section EngineProperties.
Context {H : Type} `{Host H}.




(** The report [run_scan] returns, and the calls it adds. *)
Lemma run_scan_facts (e : ScanEngine.t H) mode cb w :
  let selected := ScanEngine.get_scanners_for_mode e mode in
  let total := List.length selected in
  let report := fst (fst (ScanEngine.run_scan e mode cb w)) in
  Forall2 run_result_of selected (DiagnosticsReport.results report)
  /\ (exists now1, DiagnosticsReport.end_time report = Some now1)
  /\ DiagnosticsReport.start_time report = fst (datetime_now (host w))
  /\ ScanEngine._report (snd (fst (ScanEngine.run_scan e mode cb w)))
     = Some report
  /\ exists evs,
       events_of (ScanEngine.run_scan e mode cb) w
         = evs ++ notify_events cb total total "Complete"
       /\ loop_events cb total 0 selected evs.
Proof.
  intros selected total report. subst report.
  destruct (run_scan_spec e mode cb w)
    as (rs & evs & now1 & Hfst & HF & Ha & Hl).
  rewrite Hfst. simpl. repeat split; eauto.
  exists evs. split; [apply events_of_adds; exact Ha | exact Hl].
Qed.

Lemma run_scan_results_length (e : ScanEngine.t H) mode cb w :
  List.length
    (DiagnosticsReport.results (fst (fst (ScanEngine.run_scan e mode cb w))))
  = List.length (ScanEngine.get_scanners_for_mode e mode).
Proof.
  destruct (run_scan_facts e mode cb w) as (HF & _).
  symmetry. exact (Forall2_length HF).
Qed.

(** C2: the report of [run_scan] holds, for the scanners selected for the
    mode and in their order, one result each: the one the wrapper returned
    for that scanner, whatever the scanner did. *)
Theorem C2_one_result_per_selected_scanner (e : ScanEngine.t H)
    (mode : string) (cb : option (ScanEngine.callback H)) (w : World H) :
  let selected := ScanEngine.get_scanners_for_mode e mode in
  let report := fst (fst (ScanEngine.run_scan e mode cb w)) in
  Forall2 run_result_of selected (DiagnosticsReport.results report)
  /\ List.length (DiagnosticsReport.results report) = List.length selected.
Proof.
  intros selected report.
  destruct (run_scan_facts e mode cb w) as (HF & _).
  split; [exact HF|]. symmetry. exact (Forall2_length HF).
Qed.



(** C5: with a progress consumer supplied and [N] scanners selected, the
    consumer is called [N + 1] times: with [(i, N, name)] for the scanner
    at index [i], directly before the wrapper of that scanner is entered,
    and last with [(N, N, "Complete")].  The calls are made, not only
    recorded: on a host that shows the marks of the calls of the consumer
    and of the bodies, the marks after [run_scan] are those of the
    records of the trace, in their order; where the bodies leave none,
    they are the [N + 1] marks of the consumer. *)
Theorem C5_progress_protocol (e : ScanEngine.t H) (mode : string)
    (f : ScanEngine.callback H) (w : World H) :
  let selected := ScanEngine.get_scanners_for_mode e mode in
  let N := List.length selected in
  let evs := events_of (ScanEngine.run_scan e mode (Some f)) w in
  let final := snd (ScanEngine.run_scan e mode (Some f) w) in
  filter is_progress evs
    = map (fun js => EvProgress (fst js) N (BaseScanner.name (snd js)))
          (enumerate selected)
      ++ [EvProgress N N "Complete"]
  /\ List.length (filter is_progress evs) = N + 1
  /\ filter (fun ev => negb (is_scan ev)) evs
     = progress_protocol N 0 selected ++ [EvProgress N N "Complete"]
  /\ forall (X : Type) (obs : H -> list X)
        (told : nat -> nat -> string -> X) (mark : string -> list X),
       services_keep_marks obs ->
       consumer_marks obs told f ->
       (forall s, In s selected -> body_marks obs mark s) ->
       obs (host final) = obs (host w) ++ flat_map (view told mark) evs
       /\ ((forall n, mark n = []) ->
           obs (host final)
           = obs (host w)
             ++ map (fun js => told (fst js) N (BaseScanner.name (snd js)))
                    (enumerate selected)
             ++ [told N N "Complete"]).
Proof.
  intros selected N evs final.
  destruct (run_scan_facts e mode (Some f) w)
    as (_ & _ & _ & _ & evs0 & Heq & Hl).
  fold selected in Heq, Hl. fold N in Heq, Hl. fold evs in Heq.
  assert (Hp : filter is_progress evs
               = map (fun js => EvProgress (fst js) N
                                  (BaseScanner.name (snd js)))
                     (enumerate selected)
                 ++ [EvProgress N N "Complete"]).
  { rewrite Heq, filter_app, (loop_events_progress Hl). reflexivity. }
  split; [exact Hp | split; [|split]].
  - rewrite Hp, length_app, length_map. unfold enumerate.
    rewrite length_combine, length_seq, Nat.min_id. reflexivity.
  - rewrite Heq, filter_app, (loop_events_protocol Hl). reflexivity.
  - intros X obs told mark Hserv Hcb Hbodies.
    assert (Hcb' : forall g, Some f = Some g -> consumer_marks obs told g)
      by (intros g [= <-]; exact Hcb).
    destruct (tracked_run_scan Hserv e mode Hcb' Hbodies w) as [_ Hobs].
    fold evs in Hobs. fold final in Hobs.
    split; [exact Hobs|].
    intros Hmark. rewrite Hobs, Heq, flat_map_app.
    rewrite (loop_events_told told mark Hmark Hl). reflexivity.
Qed.

(** C6: when [scan] returns, the result [run] hands back is the returned
    one with its duration replaced by the wrapper's own measurement; the
    duration the body had set is not read; and the report of [run_scan]
    stores what [run] handed back. *)
Theorem C6_duration_is_the_wrappers (s : BaseScanner.t H) (w : World H)
    (result : ScanResult.t) :
  scan_returns_in s w result ->
  fst (BaseScanner.run s w)
    = ScanResult.set_duration_ms result (measured_ms s w)
  /\ ScanResult.duration_ms (fst (BaseScanner.run s w)) = measured_ms s w
  /\ (forall reported,
        ScanResult.set_duration_ms
          (ScanResult.set_duration_ms result reported) (measured_ms s w)
        = fst (BaseScanner.run s w))
  /\ forall (e : ScanEngine.t H) mode cb w',
       Forall2 run_result_of (ScanEngine.get_scanners_for_mode e mode)
         (DiagnosticsReport.results
            (fst (fst (ScanEngine.run_scan e mode cb w')))).
Proof.
  intros Hr. rewrite (run_returned Hr). repeat split.
  intros e mode cb w'. apply (run_scan_facts e mode cb w').
Qed.

(** C7: for a mode with an allow-list, a built engine selects exactly the
    registered scanners whose normalized name or whose category is in the
    allow-list, in the order of the registry; and the order of the
    registry is the order of registration. *)
Theorem C7_mode_filter (e : ScanEngine.t H) (mode : string)
    (allowed : list string) :
  built e ->
  ScanEngine.MODES_get mode = Some allowed ->
  (forall s,
     In s (ScanEngine.get_scanners_for_mode e mode) <->
     In s (dict_values (ScanEngine._scanners e))
     /\ str_in (ScanEngine.normalized_key (BaseScanner.name s)) allowed
        || str_in (BaseScanner.category s) allowed = true)
  /\ ScanEngine.get_scanners_for_mode e mode
     = map snd (filter (allowed_entry allowed) (ScanEngine._scanners e))
  /\ forall is_admin (ss : list (BaseScanner.t H)),
       NoDup (map key_of ss) ->
       ScanEngine.get_scanners_for_mode
         (ScanEngine.register_scanners (ScanEngine.init is_admin) ss) mode
       = filter (fun s => str_in (key_of s) allowed
                          || str_in (BaseScanner.category s) allowed)
                (map (fun s => BaseScanner.set_admin_status s is_admin) ss).
Proof.
  intros Hb Hmode.
  pose proof (built_registry_ok Hb) as [Hall _].
  rewrite Forall_forall in Hall.
  unfold ScanEngine.get_scanners_for_mode. rewrite Hmode.
  split; [|split].
  - intros s. rewrite filter_allowed_In. split.
    + intros (k & Hin & Hok). destruct (Hall _ Hin) as [Hk _].
      simpl in Hk. subst k. split; [|exact Hok].
      apply in_map_iff. exists (ScanEngine.normalized_key
                                  (BaseScanner.name s), s). auto.
    + intros [Hin Hok]. apply in_map_iff in Hin.
      destruct Hin as ([k s'] & Hs & Hin). simpl in Hs. subst s'.
      exists k. split; [exact Hin|].
      destruct (Hall _ Hin) as [Hk _]. simpl in Hk. subst k. exact Hok.
  - apply filter_allowed_filter.
  - intros a ss Hnd.
    rewrite (register_scanners_fresh (ScanEngine.init a) ss Hnd).
    simpl. clear. induction ss as [|s rest IH]; [reflexivity|].
    simpl. rewrite IH. reflexivity.
Qed.
End EngineProperties.

(* ================================================================= *)
(** ** Mode names and allow-list entries *)

Section ModeProperties.
Context {H : Type} `{Host H}.

Lemma str_in_without x k allowed :
  String.eqb k x = false ->
  str_in k (filter (fun y => negb (String.eqb y x)) allowed)
  = str_in k allowed.
Proof.
  intros Hk. unfold str_in.
  induction allowed as [|y rest IH]; [reflexivity|].
  simpl. destruct (String.eqb y x) eqn:E; simpl.
  - apply String.eqb_eq in E. subst y. rewrite Hk. exact IH.
  - rewrite IH. reflexivity.
Qed.

Lemma filter_allowed_without x allowed (items : dict (BaseScanner.t H)) :
  unmatched x items = true ->
  ScanEngine.filter_allowed allowed items
  = ScanEngine.filter_allowed
      (filter (fun y => negb (String.eqb y x)) allowed) items.
Proof.
  induction items as [|[k s] rest IH]; [reflexivity|].
  intros Hu. simpl in Hu. apply andb_true_iff in Hu.
  destruct Hu as [Hks Hrest].
  apply andb_true_iff in Hks. destruct Hks as [Hk Hc].
  apply negb_true_iff in Hk, Hc.
  cbn [ScanEngine.filter_allowed].
  rewrite (str_in_without _ _ allowed Hk), (str_in_without _ _ allowed Hc),
    (IH Hrest).
  reflexivity.
Qed.

Lemma MODES_get_unrecognized mode :
  str_in mode ["quick"; "full"; "hardware"; "security"; "network"] = false ->
  ScanEngine.MODES_get mode = None.
Proof.
  unfold str_in. simpl. intros Hm.
  repeat (apply orb_false_iff in Hm; destruct Hm as [? Hm]).
  unfold ScanEngine.MODES_get, ScanEngine.MODES. simpl.
  repeat match goal with E : String.eqb _ _ = false |- _ =>
    rewrite E; clear E end.
  reflexivity.
Qed.

(** C1, on the code: a mode name that is none of the five has no entry in
    [MODES], [MODES.get] answers [None] for it as it does for "full", and
    the scan is the full scan: every registered scanner is selected and
    run. *)
Theorem C1_unrecognized_mode_is_full_scan (mode : string) :
  str_in mode ["quick"; "full"; "hardware"; "security"; "network"] = false ->
  forall (e : ScanEngine.t H) cb w,
    ScanEngine.get_scanners_for_mode e mode
      = dict_values (ScanEngine._scanners e)
    /\ ScanEngine.run_scan e mode cb w = ScanEngine.run_scan e "full" cb w
    /\ List.length
         (DiagnosticsReport.results
            (fst (fst (ScanEngine.run_scan e mode cb w))))
       = ScanEngine.scanner_count e.
Proof.
  intros Hm e cb w.
  assert (Hsel : ScanEngine.get_scanners_for_mode e mode
                 = dict_values (ScanEngine._scanners e)).
  { unfold ScanEngine.get_scanners_for_mode.
    rewrite (MODES_get_unrecognized mode Hm). reflexivity. }
  split; [exact Hsel | split].
  - unfold ScanEngine.run_scan. rewrite Hsel. reflexivity.
  - rewrite run_scan_results_length, Hsel.
    unfold dict_values, ScanEngine.scanner_count.
    apply length_map.
Qed.

(** C10: whatever the mode, only registered scanners are selected and the
    report holds one result for each of them and nothing else; an
    allow-list entry that names no key and no category of the registry can
    be struck from the allow-list without changing the selection; and with
    the shipped scanners registered, "disk_usage" and "registry" are such
    entries. *)
Theorem C10_unmatched_entries_are_ignored :
  (forall (e : ScanEngine.t H) mode s,
     In s (ScanEngine.get_scanners_for_mode e mode) ->
     In s (dict_values (ScanEngine._scanners e)))
  /\ (forall (e : ScanEngine.t H) mode cb w,
        List.length
          (DiagnosticsReport.results
             (fst (fst (ScanEngine.run_scan e mode cb w))))
        = List.length (ScanEngine.get_scanners_for_mode e mode))
  /\ (forall x allowed (items : dict (BaseScanner.t H)),
        unmatched x items = true ->
        ScanEngine.filter_allowed allowed items
        = ScanEngine.filter_allowed
            (filter (fun y => negb (String.eqb y x)) allowed) items)
  /\ (forall scan_of admin_status,
        let e := shipped_engine (H := H) scan_of admin_status in
        unmatched "disk_usage" (ScanEngine._scanners e) = true
        /\ unmatched "registry" (ScanEngine._scanners e) = true
        /\ map (fun s => BaseScanner.name s)
               (ScanEngine.get_scanners_for_mode e "quick")
           = ["CPU"; "Memory"; "Antivirus"; "Firewall"]
        /\ map (fun s => BaseScanner.name s)
               (ScanEngine.get_scanners_for_mode e "security")
           = ["Antivirus"; "Firewall"; "Windows Update"; "Processes";
              "Services"; "BitLocker"; "Secure Boot"; "UAC";
              "Password Policy"; "Event Log"]).
Proof.
  split; [|split; [|split]].
  - intros e mode s. apply get_scanners_registered.
  - intros e mode cb w. apply run_scan_results_length.
  - intros x allowed items. apply filter_allowed_without.
  - intros scan_of a e. subst e. repeat split; reflexivity.
Qed.
End ModeProperties.

(* ================================================================= *)
(** ** Concrete runs on the simulated host *)

(** The scenario of the specification: under "quick", without privileges,
    A succeeds, the faulty scanner is contained, B is unavailable, and C
    is not selected. *)
Example quick_scan_of_stubs :
  let run := ScanEngine.run_scan stub_engine "quick" (Some sim_callback) in
  let report := fst (fst (run sim_world)) in
  map (fun r => (ScanResult.scanner_name r, ScanResult.success r,
                 ScanResult.error r, ScanResult.duration_ms r))
      (DiagnosticsReport.results report)
  = [ ("CPU", true, None, 4000%float);
      ("Memory", false, Some "boom", 2000%float);
      ("Firewall", false,
       Some "Scanner not available (missing dependencies or admin rights)",
       1000%float) ]
  /\ DiagnosticsReport.end_time report = Some 13000000%Z
  /\ events_of run sim_world
     = [ EvProgress 0 3 "CPU"; EvRun "CPU"; EvScan "CPU";
         EvProgress 1 3 "Memory"; EvRun "Memory"; EvScan "Memory";
         EvProgress 2 3 "Firewall"; EvRun "Firewall";
         EvProgress 3 3 "Complete" ].
Proof. repeat split; vm_compute; reflexivity. Qed.

(** A scan of the stubs under a mode name that is no mode. *)
Example unknown_mode_scan_of_stubs :
  let run :=
    ScanEngine.run_scan stub_engine "totally-unknown-mode"
      (Some sim_callback) in
  map ScanResult.scanner_name
      (DiagnosticsReport.results (fst (fst (run sim_world))))
  = ["CPU"; "Memory"; "Firewall"; "OS Info"]
  /\ filter is_progress (events_of run sim_world)
     = [ EvProgress 0 4 "CPU"; EvProgress 1 4 "Memory";
         EvProgress 2 4 "Firewall"; EvProgress 3 4 "OS Info";
         EvProgress 4 4 "Complete" ].
Proof. split; vm_compute; reflexivity. Qed.

Lemma C1_unrecognized_mode_is_full_scan_witness :
  ScanEngine.get_scanners_for_mode stub_engine "totally-unknown-mode"
  = dict_values (ScanEngine._scanners stub_engine)
  /\ List.length
       (DiagnosticsReport.results
          (fst (fst (ScanEngine.run_scan stub_engine "totally-unknown-mode"
                       (Some sim_callback) sim_world))))
     = 4.
Proof.
  destruct (@C1_unrecognized_mode_is_full_scan SimHost _
              "totally-unknown-mode" eq_refl stub_engine
              (Some sim_callback) sim_world) as (Hsel & _ & Hlen).
  split; [exact Hsel | exact Hlen].
Defined.




Lemma C5_progress_protocol_witness :
  spy_marks
    (host (snd (ScanEngine.run_scan spy_engine "full" (Some spy_callback)
                  spy_world)))
  = [Told 0 2 "CPU"; Scanned "CPU"; Told 1 2 "Firewall";
     Told 2 2 "Complete"].
Proof.
  destruct (@C5_progress_protocol SpyHost _ spy_engine "full" spy_callback
              spy_world) as (_ & _ & _ & Hmarks).
  assert (Hserv : services_keep_marks spy_marks)
    by (repeat split; intros; reflexivity).
  assert (Hcb : consumer_marks spy_marks Told spy_callback)
    by (intros c t l h; reflexivity).
  assert (Hbodies : forall s,
            In s (ScanEngine.get_scanners_for_mode spy_engine "full") ->
            body_marks spy_marks (fun n => [Scanned n]) s).
  { intros s Hin. vm_compute in Hin.
    destruct Hin as [<- | [<- | []]]; intros t a h; reflexivity. }
  destruct (Hmarks spy_mark spy_marks Told (fun n => [Scanned n])
              Hserv Hcb Hbodies) as [Hview _].
  rewrite Hview. reflexivity.
Defined.

Lemma C6_duration_is_the_wrappers_witness :
  ScanResult.duration_ms (fst (BaseScanner.run stub_a sim_world))
  = measured_ms stub_a sim_world
  /\ measured_ms stub_a sim_world = 4000%float.
Proof.
  split; [|vm_compute; reflexivity].
  assert (Hr : scan_returns_in stub_a sim_world
                 (ScanResult.mk "CPU" "hardware" true [pass_finding]
                    999999%float [] None 0%Z))
    by (split; reflexivity).
  destruct (@C6_duration_is_the_wrappers SimHost _ stub_a sim_world _ Hr)
    as (_ & Hd & _).
  exact Hd.
Defined.

Lemma C7_mode_filter_witness :
  map (fun s => BaseScanner.name s)
      (ScanEngine.get_scanners_for_mode stub_engine "quick")
  = ["CPU"; "Memory"; "Firewall"].
Proof.
  assert (Hb : built stub_engine)
    by (apply register_scanners_built; constructor).
  assert (Hnd : NoDup (map key_of [stub_a; stub_faulty; stub_b; stub_c])).
  { vm_compute. repeat constructor; simpl; intuition discriminate. }
  destruct (@C7_mode_filter SimHost _ stub_engine "quick"
              ["cpu"; "memory"; "disk_usage"; "antivirus"; "firewall"]
              Hb eq_refl) as (_ & _ & Horder).
  unfold stub_engine. rewrite (Horder false _ Hnd). reflexivity.
Defined.

Lemma C10_unmatched_entries_are_ignored_witness :
  let items :=
    ScanEngine._scanners (shipped_engine (fun _ => scan_raises "") false) in
  unmatched "disk_usage" items = true
  /\ ScanEngine.filter_allowed
       ["cpu"; "memory"; "disk_usage"; "antivirus"; "firewall"] items
     = ScanEngine.filter_allowed
         ["cpu"; "memory"; "antivirus"; "firewall"] items.
Proof.
  intros items.
  assert (Hu : unmatched "disk_usage" items = true) by reflexivity.
  split; [exact Hu|].
  destruct (@C10_unmatched_entries_are_ignored SimHost _)
    as (_ & _ & Hstrike & _).
  exact (Hstrike "disk_usage"
           ["cpu"; "memory"; "disk_usage"; "antivirus"; "firewall"]
           items Hu).
Defined.

(* ================================================================= *)
(** ** More on dictionaries and on registry keys *)

Section DictFacts.
Variable V : Type.

Lemma dict_get_set_same (d : dict V) k v : dict_get (dict_set d k v) k = Some v.
Proof.
  induction d as [|[k0 v0] rest IH]; simpl.
  - rewrite String.eqb_refl. reflexivity.
  - destruct (String.eqb k k0) eqn:E; simpl; rewrite E; auto.
Qed.

Lemma dict_get_set_other (d : dict V) k v k' :
  k' <> k -> dict_get (dict_set d k v) k' = dict_get d k'.
Proof.
  intros Hne. induction d as [|[k0 v0] rest IH]; simpl.
  - apply String.eqb_neq in Hne. rewrite Hne. reflexivity.
  - destruct (String.eqb k k0) eqn:E; simpl.
    + apply String.eqb_eq in E. subst k0.
      apply String.eqb_neq in Hne. rewrite Hne. reflexivity.
    + rewrite IH. reflexivity.
Qed.

Lemma dict_set_set (d : dict V) k v1 v2 :
  dict_set (dict_set d k v1) k v2 = dict_set d k v2.
Proof.
  induction d as [|[k0 v0] rest IH]; simpl.
  - rewrite String.eqb_refl. reflexivity.
  - destruct (String.eqb k k0) eqn:E; simpl; rewrite E; [reflexivity|].
    rewrite IH. reflexivity.
Qed.

Lemma dict_keys_set (d : dict V) k v :
  dict_keys (dict_set d k v) =
  if str_in k (dict_keys d) then dict_keys d else dict_keys d ++ [k].
Proof.
  unfold str_in. induction d as [|[k0 v0] rest IH]; simpl; [reflexivity|].
  destruct (String.eqb k k0) eqn:E; simpl; [reflexivity|].
  rewrite IH. destruct (existsb _ _); reflexivity.
Qed.

Lemma dict_get_Some_In (d : dict V) k v : dict_get d k = Some v -> In (k, v) d.
Proof.
  induction d as [|[k0 v0] rest IH]; simpl; [discriminate|].
  destruct (String.eqb k k0) eqn:E.
  - apply String.eqb_eq in E. subst k0. intros [= ->]. auto.
  - auto.
Qed.

Lemma dict_get_None_keys (d : dict V) k :
  dict_get d k = None <-> ~ In k (dict_keys d).
Proof.
  induction d as [|[k0 v0] rest IH]; simpl; [tauto|].
  destruct (String.eqb k k0) eqn:E.
  - apply String.eqb_eq in E. subst k0. split; [discriminate|].
    intros Hn. exfalso. auto.
  - apply String.eqb_neq in E. rewrite IH. split.
    + intros Hn [Hk | Hk]; [congruence | contradiction].
    + intros Hn Hk. apply Hn. auto.
Qed.

Lemma dict_get_keys (d : dict V) k :
  In k (dict_keys d) -> exists v, dict_get d k = Some v.
Proof.
  intros Hin. destruct (dict_get d k) as [v|] eqn:E; [eauto|].
  apply dict_get_None_keys in E. contradiction.
Qed.

(** The entry a lookup finds, and what an assignment to its key does. *)
Lemma dict_get_split (d : dict V) k m :
  dict_get d k = Some m ->
  exists d1 d2,
    d = d1 ++ (k, m) :: d2
    /\ ~ In k (dict_keys d1)
    /\ forall v, dict_set d k v = d1 ++ (k, v) :: d2.
Proof.
  induction d as [|[k0 v0] rest IH]; simpl; [discriminate|].
  destruct (String.eqb k k0) eqn:E.
  - apply String.eqb_eq in E. subst k0. intros [= ->].
    exists [], rest. simpl. auto.
  - intros Hget. destruct (IH Hget) as (d1 & d2 & -> & Hn & Hset).
    exists ((k0, v0) :: d1), d2. simpl. repeat split.
    + intros [Hk | Hk]; [|contradiction].
      subst k0. rewrite String.eqb_refl in E. discriminate.
    + intros v. rewrite Hset. reflexivity.
Qed.
End DictFacts.

Section KeyFacts.

Lemma normalized_char_idem (c : ascii) :
  let norm x := if Ascii.eqb (lower_char x) " " then "_"%char
                else lower_char x in
  norm (norm c) = norm c.
Proof.
  destruct c as [[] [] [] [] [] [] [] []]; reflexivity.
Qed.

Lemma normalized_char_no_space (c : ascii) :
  (if Ascii.eqb (lower_char c) " " then "_"%char else lower_char c)
  <> " "%char.
Proof.
  destruct c as [[] [] [] [] [] [] [] []]; discriminate.
Qed.

Lemma normalized_key_cons c rest :
  ScanEngine.normalized_key (String c rest) =
  String (if Ascii.eqb (lower_char c) " " then "_"%char else lower_char c)
         (ScanEngine.normalized_key rest).
Proof. reflexivity. Qed.

Lemma normalized_key_idem n :
  ScanEngine.normalized_key (ScanEngine.normalized_key n)
  = ScanEngine.normalized_key n.
Proof.
  induction n as [|c rest IH]; [reflexivity|].
  rewrite !normalized_key_cons, IH.
  f_equal. apply normalized_char_idem.
Qed.

(** [" " in s] *)
Lemma normalized_key_no_space n :
  ~ In " "%char (list_ascii_of_string (ScanEngine.normalized_key n)).
Proof.
  induction n as [|c rest IH]; [intros []|].
  rewrite normalized_key_cons. simpl. intros [Hc | Hin]; [|auto].
  exact (normalized_char_no_space c Hc).
Qed.
End KeyFacts.

(* ================================================================= *)
(** ** Registration and lookup (engine.py) *)

Section RegistrationProperties.
Context {H : Type} `{Host H}.

(** X1: once a scanner is registered, [run_single_scanner] with any
    spelling that normalizes to the key of its name runs that scanner,
    the engine's privilege flag set on it. *)
Theorem X1_register_then_run_single (e : ScanEngine.t H)
    (s : BaseScanner.t H) (scanner_name : string) (w : World H) :
  ScanEngine.normalized_key scanner_name
    = ScanEngine.normalized_key (BaseScanner.name s) ->
  let registered :=
    BaseScanner.set_admin_status s (ScanEngine.is_admin e) in
  ScanEngine.run_single_scanner (ScanEngine.register_scanner e s)
    scanner_name w
  = (Some (fst (BaseScanner.run registered w)),
     snd (BaseScanner.run registered w)).
Proof.
  intros Hk registered.
  unfold ScanEngine.run_single_scanner, ScanEngine.register_scanner.
  simpl. rewrite Hk, dict_get_set_same, bind_eq. reflexivity.
Qed.

(** X2: [run_single_scanner] with a name whose key is not registered
    answers [None] and does nothing: no clock is read, no wrapper
    entered. *)
Theorem X2_run_single_unregistered (e : ScanEngine.t H)
    (scanner_name : string) (w : World H) :
  ~ In (ScanEngine.normalized_key scanner_name)
       (ScanEngine.available_scanners e) ->
  ScanEngine.run_single_scanner e scanner_name w = (None, w).
Proof.
  intros Hn. apply dict_get_None_keys in Hn.
  unfold ScanEngine.run_single_scanner. rewrite Hn. reflexivity.
Qed.

(** X3: [register_scanner] lists a new key last and leaves the list of
    keys as it is for a key already there; lookups under other keys are
    not affected, nor is the privilege flag. *)
Theorem X3_register_scanner_keys (e : ScanEngine.t H)
    (s : BaseScanner.t H) :
  let k := ScanEngine.normalized_key (BaseScanner.name s) in
  let e' := ScanEngine.register_scanner e s in
  ScanEngine.available_scanners e'
    = (if str_in k (ScanEngine.available_scanners e)
       then ScanEngine.available_scanners e
       else ScanEngine.available_scanners e ++ [k])
  /\ ScanEngine.scanner_count e'
     = (if str_in k (ScanEngine.available_scanners e)
        then ScanEngine.scanner_count e
        else S (ScanEngine.scanner_count e))
  /\ (forall k', k' <> k ->
        dict_get (ScanEngine._scanners e') k'
        = dict_get (ScanEngine._scanners e) k')
  /\ ScanEngine.is_admin e' = ScanEngine.is_admin e.
Proof.
  intros k e'. subst e'.
  assert (Hkeys : ScanEngine.available_scanners
                    (ScanEngine.register_scanner e s)
                  = (if str_in k (ScanEngine.available_scanners e)
                     then ScanEngine.available_scanners e
                     else ScanEngine.available_scanners e ++ [k]))
    by apply dict_keys_set.
  split; [exact Hkeys | split; [|split]].
  - unfold ScanEngine.scanner_count.
    rewrite <- !(length_map fst).
    change (map fst (ScanEngine._scanners (ScanEngine.register_scanner e s)))
      with (ScanEngine.available_scanners (ScanEngine.register_scanner e s)).
    rewrite Hkeys. unfold ScanEngine.available_scanners, dict_keys.
    destruct (str_in k _); [reflexivity|].
    rewrite length_app. simpl. lia.
  - intros k' Hne. apply dict_get_set_other. exact Hne.
  - reflexivity.
Qed.

(** X4: of two scanners whose names normalize to the same key the later
    registration wins, without a trace of the earlier one: registering
    both is registering the second alone. *)
Theorem X4_last_registration_wins (e : ScanEngine.t H)
    (s1 s2 : BaseScanner.t H) :
  ScanEngine.normalized_key (BaseScanner.name s1)
    = ScanEngine.normalized_key (BaseScanner.name s2) ->
  ScanEngine.register_scanner (ScanEngine.register_scanner e s1) s2
  = ScanEngine.register_scanner e s2.
Proof.
  intros Hk. unfold ScanEngine.register_scanner. simpl.
  rewrite Hk, dict_set_set. reflexivity.
Qed.

(** X5: every key that [available_scanners] lists for a built engine can
    be handed back to [run_single_scanner], which runs the scanner
    registered under it. *)
Theorem X5_listed_keys_can_be_run (e : ScanEngine.t H) (k : string)
    (w : World H) :
  built e ->
  In k (ScanEngine.available_scanners e) ->
  exists s,
    In (k, s) (ScanEngine._scanners e)
    /\ ScanEngine.run_single_scanner e k w
       = (Some (fst (BaseScanner.run s w)), snd (BaseScanner.run s w)).
Proof.
  intros Hb Hin.
  destruct (dict_get_keys _ _ Hin) as [s Hget].
  pose proof (dict_get_Some_In _ _ Hget) as Hentry.
  exists s. split; [exact Hentry|].
  destruct (built_registry_ok Hb) as [Hall _].
  rewrite Forall_forall in Hall. destruct (Hall _ Hentry) as [Hk _].
  simpl in Hk.
  unfold ScanEngine.run_single_scanner.
  rewrite Hk, normalized_key_idem, <- Hk, Hget, bind_eq. reflexivity.
Qed.

(** X6: the registry of a built engine keeps its shape: no key is listed
    twice, no key holds a space, every scanner sits under the normalized
    key of its name and carries the privilege flag of the engine. *)
Theorem X6_registry_invariant (e : ScanEngine.t H) :
  built e ->
  NoDup (ScanEngine.available_scanners e)
  /\ ScanEngine.scanner_count e
     = List.length (ScanEngine.available_scanners e)
  /\ forall k s,
       In (k, s) (ScanEngine._scanners e) ->
       k = ScanEngine.normalized_key (BaseScanner.name s)
       /\ ~ In " "%char (list_ascii_of_string k)
       /\ BaseScanner._is_admin s = ScanEngine.is_admin e.
Proof.
  intros Hb. destruct (built_registry_ok Hb) as [Hall Hnd].
  split; [exact Hnd | split].
  - unfold ScanEngine.scanner_count, ScanEngine.available_scanners,
      dict_keys. rewrite length_map. reflexivity.
  - intros k s Hin. rewrite Forall_forall in Hall.
    destruct (Hall _ Hin) as [Hk Ha]. simpl in Hk, Ha.
    repeat split; auto. subst k. apply normalized_key_no_space.
Qed.

Lemma lift_value A (f : H -> A * H) (w : World H) :
  fst (lift f w) = fst (f (host w)).
Proof. unfold lift. destruct (f (host w)); reflexivity. Qed.

(** X8: the report [run_scan] returns carries two readings of
    [datetime.now()]: its start time is the reading at the creation of the
    report, its end time the reading at [finalize], after the loop over
    the scanners; its total duration is the time between the two, and the
    durations of the results do not enter. *)
Theorem X8_run_scan_total_duration (e : ScanEngine.t H) (mode : string)
    (cb : option (ScanEngine.callback H)) (w : World H) :
  let report := fst (fst (ScanEngine.run_scan e mode cb w)) in
  let started := fst (datetime_now (host w)) in
  let ended := fst (datetime_now (host (world_at_finalize e mode cb w))) in
  DiagnosticsReport.start_time report = started
  /\ DiagnosticsReport.end_time report = Some ended
  /\ DiagnosticsReport.total_duration_ms report
     = PrimFloat.mul (total_seconds (ended - started)%Z) 1000%float.
Proof.
  intros report started ended.
  set (rep0 := fst (DiagnosticsReport.init w)).
  set (w0 := snd (DiagnosticsReport.init w)).
  set (selected := ScanEngine.get_scanners_for_mode e mode).
  destruct (scan_loop_spec cb (List.length selected) selected 0 rep0 w0)
    as (rs & evs & Hfst & _).
  assert (Hstart : DiagnosticsReport.start_time rep0 = started).
  { unfold rep0, DiagnosticsReport.init. rewrite bind_eq. simpl.
    apply lift_value. }
  assert (Hrep : report
                 = DiagnosticsReport.set_end_time
                     (fst (ScanEngine.scan_loop cb (List.length selected) 0
                             selected rep0 w0))
                     ended).
  { unfold report, ScanEngine.run_scan. rewrite !bind_eq.
    fold rep0. fold w0. fold selected. simpl.
    unfold DiagnosticsReport.finalize. rewrite !bind_eq. simpl.
    rewrite lift_value. reflexivity. }
  rewrite Hrep, Hfst. unfold DiagnosticsReport.total_duration_ms. simpl.
  rewrite Hstart. repeat split.
Qed.
End RegistrationProperties.

(* ================================================================= *)
(** ** Availability (scanner.py) *)

Section AvailabilityProperties.
Context {H : Type} `{Host H}.




Lemma check_dependencies_none (w : World H) :
  BaseScanner._check_dependencies_from [] w = (Returned true, w).
Proof. reflexivity. Qed.



End AvailabilityProperties.

(* ================================================================= *)
(** ** More on the data model (result.py) *)

Section ReportProperties.

Lemma int_sum_ones A (xs : list A) :
  int_sum (map (fun _ => 1) xs) = List.length xs.
Proof.
  induction xs as [|x rest IH]; [reflexivity|].
  simpl map. rewrite int_sum_cons, IH. reflexivity.
Qed.

Lemma int_sum_app xs ys : int_sum (xs ++ ys) = int_sum xs + int_sum ys.
Proof.
  induction xs as [|x rest IH]; [reflexivity|].
  simpl app. rewrite !int_sum_cons, IH. lia.
Qed.

Lemma count_results_split test rs :
  count_results test rs + count_results (fun r => negb (test r)) rs
  = List.length rs.
Proof.
  unfold count_results. rewrite !int_sum_ones.
  induction rs as [|r rest IH]; [reflexivity|].
  simpl. destruct (test r); simpl; lia.
Qed.

Lemma severity_partition (fs : list Finding.t) :
  let n level :=
    List.length
      (filter (fun f => Severity_eqb (Finding.severity f) level) fs) in
  n PASS + n INFO + n WARNING + n CRITICAL + n UNKNOWN = List.length fs.
Proof.
  cbv zeta. induction fs as [|f rest IH]; [reflexivity|].
  simpl. destruct (Finding.severity f); simpl; lia.
Qed.

(** X12: [add_result] puts the result last and adds its findings and its
    counts to those of the report. *)
Theorem X12_add_result_accumulates (r : DiagnosticsReport.t)
    (x : ScanResult.t) :
  let r' := DiagnosticsReport.add_result r x in
  DiagnosticsReport.results r' = DiagnosticsReport.results r ++ [x]
  /\ DiagnosticsReport.all_findings r'
     = DiagnosticsReport.all_findings r ++ ScanResult.findings x
  /\ DiagnosticsReport.critical_count r'
     = DiagnosticsReport.critical_count r + ScanResult.critical_count x
  /\ DiagnosticsReport.warning_count r'
     = DiagnosticsReport.warning_count r + ScanResult.warning_count x
  /\ DiagnosticsReport.pass_count r'
     = DiagnosticsReport.pass_count r + ScanResult.pass_count x.
Proof.
  cbv zeta.
  unfold DiagnosticsReport.all_findings, DiagnosticsReport.critical_count,
    DiagnosticsReport.warning_count, DiagnosticsReport.pass_count.
  simpl. rewrite flat_map_app, !map_app, !int_sum_app. simpl.
  rewrite app_nil_r, !int_sum_cons. change (int_sum []) with 0.
  repeat split; lia.
Qed.

(** X13: every finding of a report is at one of the five levels, so the
    three counts together never exceed the number of findings; what is
    missing to it are the findings at INFO and UNKNOWN. *)
Theorem X13_counts_within_findings (r : DiagnosticsReport.t) :
  let others :=
    List.length
      (filter (fun f =>
                 Severity_eqb (Finding.severity f) INFO
                 || Severity_eqb (Finding.severity f) UNKNOWN)
              (DiagnosticsReport.all_findings r)) in
  DiagnosticsReport.critical_count r + DiagnosticsReport.warning_count r
    + DiagnosticsReport.pass_count r + others
  = List.length (DiagnosticsReport.all_findings r)
  /\ DiagnosticsReport.critical_count r + DiagnosticsReport.warning_count r
       + DiagnosticsReport.pass_count r
     <= List.length (DiagnosticsReport.all_findings r).
Proof.
  cbv zeta.
  assert (Heq : DiagnosticsReport.critical_count r
                + DiagnosticsReport.warning_count r
                + DiagnosticsReport.pass_count r
                + List.length
                    (filter (fun f =>
                               Severity_eqb (Finding.severity f) INFO
                               || Severity_eqb (Finding.severity f) UNKNOWN)
                            (DiagnosticsReport.all_findings r))
                = List.length (DiagnosticsReport.all_findings r)).
  { unfold DiagnosticsReport.critical_count,
      DiagnosticsReport.warning_count, DiagnosticsReport.pass_count,
      ScanResult.critical_count, ScanResult.warning_count,
      ScanResult.pass_count.
    rewrite !sum_counts_all_findings.
    fold (DiagnosticsReport.all_findings r).
    induction (DiagnosticsReport.all_findings r) as [|f rest IH];
      [reflexivity|].
    simpl. destruct (Finding.severity f); simpl; lia. }
  split; [exact Heq | lia].
Qed.

(** X14: while a report is not finalized, a result added to it adds its
    duration to the total; once the report is finalized, results added to
    it no longer change the total. *)
Theorem X14_total_duration_and_add_result (rs : list ScanResult.t)
    (start e : datetime) (info : dict string) (x : ScanResult.t) :
  DiagnosticsReport.total_duration_ms
    (DiagnosticsReport.add_result
       (DiagnosticsReport.mk rs start None info) x)
  = PrimFloat.add
      (DiagnosticsReport.total_duration_ms
         (DiagnosticsReport.mk rs start None info))
      (ScanResult.duration_ms x)
  /\ DiagnosticsReport.total_duration_ms
       (DiagnosticsReport.add_result
          (DiagnosticsReport.mk rs start (Some e) info) x)
     = DiagnosticsReport.total_duration_ms
         (DiagnosticsReport.mk rs start (Some e) info).
Proof.
  split; [|reflexivity].
  unfold DiagnosticsReport.total_duration_ms, float_sum. simpl.
  rewrite map_app, fold_left_app. reflexivity.
Qed.
End ReportProperties.

Section ToDictProperties.
Variable isoformat : datetime -> string.

(** X16: in the dictionary of a report, the successful and the failed
    scans of the summary add up to its total, which is the number of
    entries under "results"; the three issue counts are those of the
    report; and "end_time" is [None] exactly for a report that is not
    finalized. *)
Theorem X16_to_dict_summary (r : DiagnosticsReport.t) :
  let d := DiagnosticsReport_to_dict isoformat r in
  exists summary total ok failed entries,
    py_item d "summary" = Some summary
    /\ py_item summary "total_scanners" = Some (PyInt total)
    /\ py_item summary "successful_scans" = Some (PyInt ok)
    /\ py_item summary "failed_scans" = Some (PyInt failed)
    /\ (ok + failed = total)%Z
    /\ py_item d "results" = Some (PyList entries)
    /\ Z.of_nat (List.length entries) = total
    /\ py_item summary "critical_issues"
       = Some (PyInt (Z.of_nat (DiagnosticsReport.critical_count r)))
    /\ py_item summary "warnings"
       = Some (PyInt (Z.of_nat (DiagnosticsReport.warning_count r)))
    /\ py_item summary "passed"
       = Some (PyInt (Z.of_nat (DiagnosticsReport.pass_count r)))
    /\ (py_item d "end_time" = Some PyNone
        <-> DiagnosticsReport.end_time r = None).
Proof.
  cbv zeta. eexists _, _, _, _, _.
  repeat (split; [reflexivity|]).
  split; [|split; [reflexivity|split;
    [|repeat (split; [reflexivity|])]]].
  - rewrite <- Nat2Z.inj_add, count_results_split. reflexivity.
  - rewrite length_map. reflexivity.
  - simpl. destruct (DiagnosticsReport.end_time r); split; intros Heq;
      try reflexivity; discriminate.
Qed.
End ToDictProperties.

(* ================================================================= *)
(** ** Grouping by category (cli/ui/console.py) *)

Section GroupingProperties.
Variable upper : string -> string.

Lemma group_result_cases (categories : dict (list ScanResult.t)) x :
  let cat := upper (ScanResult.category x) in
  (exists d1 d2 m,
     categories = d1 ++ (cat, m) :: d2
     /\ ~ In cat (dict_keys d1)
     /\ group_result upper categories x = d1 ++ (cat, m ++ [x]) :: d2)
  \/ (~ In cat (dict_keys categories)
      /\ group_result upper categories x = categories ++ [(cat, [x])]).
Proof.
  intros cat. unfold group_result. fold cat.
  destruct (dict_get categories cat) as [m|] eqn:E.
  - left. rewrite E.
    destruct (dict_get_split _ _ E) as (d1 & d2 & Heq & Hn & Hset).
    exists d1, d2, m. auto.
  - right. pose proof E as Hn. apply dict_get_None_keys in Hn.
    split; [exact Hn|].
    rewrite dict_get_set_same, dict_set_set. simpl.
    apply dict_set_fresh. exact Hn.
Qed.

Lemma filter_snoc A (f : A -> bool) xs x :
  filter f (xs ++ [x]) = filter f xs ++ (if f x then [x] else []).
Proof. rewrite filter_app. reflexivity. Qed.

Lemma grouped_other_entries (d : dict (list ScanResult.t)) seen x :
  ~ In (upper (ScanResult.category x)) (dict_keys d) ->
  Forall (fun entry =>
            snd entry <> []
            /\ snd entry
               = filter (fun y => String.eqb (upper (ScanResult.category y))
                                    (fst entry)) seen) d ->
  Forall (fun entry =>
            snd entry <> []
            /\ snd entry
               = filter (fun y => String.eqb (upper (ScanResult.category y))
                                    (fst entry)) (seen ++ [x])) d.
Proof.
  intros Hn Hall. rewrite Forall_forall in *. intros [c m] Hin.
  destruct (Hall _ Hin) as [Hne Hm]. simpl in *. split; [exact Hne|].
  rewrite filter_snoc.
  destruct (String.eqb (upper (ScanResult.category x)) c) eqn:E.
  - apply String.eqb_eq in E. exfalso. apply Hn. rewrite E.
    apply in_map_iff. exists (c, m). auto.
  - rewrite app_nil_r. exact Hm.
Qed.

Lemma grouped_step categories seen x :
  grouped upper categories seen ->
  grouped upper (group_result upper categories x) (seen ++ [x]).
Proof.
  intros (Hperm & Hnd & Hall).
  destruct (group_result_cases categories x)
    as [(d1 & d2 & m & Heq & Hn1 & ->) | (Hn & ->)].
  - subst categories.
    assert (Hn2 : ~ In (upper (ScanResult.category x)) (dict_keys d2)).
    { unfold dict_keys in Hnd. rewrite map_app in Hnd. simpl in Hnd.
      apply NoDup_remove_2 in Hnd. intros Hin. apply Hnd.
      apply in_or_app. right. exact Hin. }
    apply Forall_app in Hall. destruct Hall as [Hall1 Hall2].
    inversion Hall2 as [|? ? [Hne Hm] Hall2']; subst. simpl in Hne, Hm.
    split; [|split].
    + rewrite flat_map_app in *. simpl in *.
      rewrite <- Hperm, <- !app_assoc.
      apply Permutation_app_head. apply Permutation_app_head.
      apply Permutation_app_comm.
    + unfold dict_keys in *. rewrite map_app in *. exact Hnd.
    + apply Forall_app. split; [apply grouped_other_entries; assumption|].
      constructor; [|apply grouped_other_entries; assumption].
      simpl. split; [destruct m; discriminate|].
      rewrite filter_snoc, String.eqb_refl, <- Hm. reflexivity.
  - assert (Hkeys : forall y, In y seen ->
                      In (upper (ScanResult.category y))
                         (dict_keys categories)).
    { intros y Hy. apply (Permutation_in _ (Permutation_sym Hperm)) in Hy.
      apply in_flat_map in Hy. destruct Hy as ([c m] & Hin & Hy).
      rewrite Forall_forall in Hall. destruct (Hall _ Hin) as [_ Hm].
      simpl in Hm, Hy. rewrite Hm in Hy. apply filter_In in Hy.
      destruct Hy as [_ Hc]. apply String.eqb_eq in Hc. rewrite Hc.
      apply in_map_iff. exists (c, m). auto. }
    assert (Hnone : filter (fun y => String.eqb
                                       (upper (ScanResult.category y))
                                       (upper (ScanResult.category x)))
                           seen = []).
    { clear - Hkeys Hn. induction seen as [|y rest IH]; [reflexivity|].
      simpl.
      destruct (String.eqb (upper (ScanResult.category y))
                           (upper (ScanResult.category x))) eqn:E.
      - apply String.eqb_eq in E. exfalso. apply Hn. rewrite <- E.
        apply Hkeys. left. reflexivity.
      - apply IH. intros z Hz. apply Hkeys. right. exact Hz. }
    split; [|split].
    + rewrite flat_map_app. simpl.
      apply Permutation_app_tail. exact Hperm.
    + unfold dict_keys in *. rewrite map_app. simpl.
      apply (Permutation_NoDup (Permutation_cons_append _ _)).
      constructor; assumption.
    + apply Forall_app. split; [apply grouped_other_entries; assumption|].
      constructor; [|constructor]. simpl. split; [discriminate|].
      rewrite filter_snoc, String.eqb_refl, Hnone. reflexivity.
Qed.

Lemma grouped_fold rs : forall categories seen,
  grouped upper categories seen ->
  grouped upper (fold_left (group_result upper) rs categories) (seen ++ rs).
Proof.
  induction rs as [|x rest IH]; intros categories seen Hg; simpl.
  - rewrite app_nil_r. exact Hg.
  - replace (seen ++ x :: rest) with ((seen ++ [x]) ++ rest)
      by (rewrite <- app_assoc; reflexivity).
    apply IH. apply grouped_step. exact Hg.
Qed.

(** X17: the grouping of [print_report] puts every result of the report
    into exactly one group: the groups, one per upper-cased category and
    none of them empty, hold together the results of the report, and
    each group holds the results of its category in the order of the
    report. *)
Theorem X17_grouping_is_a_partition (rs : list ScanResult.t) :
  let groups := group_by_category upper rs in
  Permutation (flat_map snd groups) rs
  /\ NoDup (dict_keys groups)
  /\ forall c members,
       In (c, members) groups ->
       members <> []
       /\ members
          = filter (fun y => String.eqb (upper (ScanResult.category y)) c)
                   rs.
Proof.
  intros groups.
  assert (Hg : grouped upper groups ([] ++ rs)).
  { apply grouped_fold. split; [constructor | split; constructor]. }
  simpl in Hg. destruct Hg as (Hperm & Hnd & Hall).
  split; [exact Hperm | split; [exact Hnd|]].
  intros c members Hin. rewrite Forall_forall in Hall.
  exact (Hall _ Hin).
Qed.
End GroupingProperties.

(* ================================================================= *)
(** ** What is printed (cli/ui/console.py) *)

Section PrintingProperties.
Variable format_0f : float -> string.
Variable upper : string -> string.

Lemma summary_status_line (r : DiagnosticsReport.t) t :
  t = line_critical \/ t = line_warnings \/ t = line_healthy ->
  (In (Say t None) (print_summary format_0f r) <-> overall_status r = t).
Proof.
  intros Ht. unfold print_summary. simpl. split.
  - intros [Hx|[Hx|[Hx|[Hx|[Hx|[Hx|[Hx|[]]]]]]]];
      try (injection Hx as Hx; exact Hx);
      try discriminate Hx;
      exfalso; injection Hx as Hx;
      destruct Ht as [-> | [-> | ->]]; vm_compute in Hx; discriminate Hx.
  - intros <-. do 5 right. left. reflexivity.
Qed.

Lemma count_positive level (r : DiagnosticsReport.t) :
  0 < int_sum (map (fun x => ScanResult.count_severity level
                               (ScanResult.findings x))
                 (DiagnosticsReport.results r))
  <-> exists f, In f (DiagnosticsReport.all_findings r)
                /\ Severity_eqb (Finding.severity f) level = true.
Proof.
  rewrite sum_counts_all_findings. fold (DiagnosticsReport.all_findings r).
  split.
  - intros Hpos.
    destruct (filter _ (DiagnosticsReport.all_findings r)) as [|f rest] eqn:E;
      [simpl in Hpos; lia|].
    assert (Hin : In f (filter (fun g => Severity_eqb (Finding.severity g)
                                           level)
                               (DiagnosticsReport.all_findings r)))
      by (rewrite E; left; reflexivity).
    apply filter_In in Hin. exists f. exact Hin.
  - intros (f & Hin & Hf).
    assert (Hfil : In f (filter (fun g => Severity_eqb (Finding.severity g)
                                            level)
                                (DiagnosticsReport.all_findings r)))
      by (apply filter_In; auto).
    destruct (filter _ _); [destruct Hfil | simpl; lia].
Qed.

(** X18: [print_summary] prints the line on critical issues exactly when
    some finding of the report is at CRITICAL, whatever else was found;
    and it prints the line "System appears healthy" exactly when no
    finding is at CRITICAL or at WARNING. *)
Theorem X18_summary_status (r : DiagnosticsReport.t) :
  (In (Say line_critical None) (print_summary format_0f r)
   <-> exists f, In f (DiagnosticsReport.all_findings r)
                 /\ Finding.severity f = CRITICAL)
  /\ (In (Say line_healthy None) (print_summary format_0f r)
      <-> forall f, In f (DiagnosticsReport.all_findings r) ->
                    Finding.severity f <> CRITICAL
                    /\ Finding.severity f <> WARNING).
Proof.
  assert (Hsev : forall f level,
            Severity_eqb (Finding.severity f) level = true
            <-> Finding.severity f = level).
  { intros f level.
    destruct (Finding.severity f), level; simpl; split;
      intros; congruence. }
  rewrite !summary_status_line by auto. unfold overall_status.
  change (DiagnosticsReport.critical_count r)
    with (int_sum (map (fun x => ScanResult.count_severity CRITICAL
                                   (ScanResult.findings x))
                     (DiagnosticsReport.results r))).
  change (DiagnosticsReport.warning_count r)
    with (int_sum (map (fun x => ScanResult.count_severity WARNING
                                   (ScanResult.findings x))
                     (DiagnosticsReport.results r))).
  set (nc := int_sum (map (fun x => ScanResult.count_severity CRITICAL
                                      (ScanResult.findings x))
                        (DiagnosticsReport.results r))).
  set (nw := int_sum (map (fun x => ScanResult.count_severity WARNING
                                      (ScanResult.findings x))
                        (DiagnosticsReport.results r))).
  assert (Hc : 0 < nc <->
               exists f, In f (DiagnosticsReport.all_findings r)
                         /\ Severity_eqb (Finding.severity f) CRITICAL = true)
    by apply count_positive.
  assert (Hw : 0 < nw <->
               exists f, In f (DiagnosticsReport.all_findings r)
                         /\ Severity_eqb (Finding.severity f) WARNING = true)
    by apply count_positive.
  destruct (Nat.ltb_spec 0 nc) as [E1|E1];
    destruct (Nat.ltb_spec 0 nw) as [E2|E2].
  - apply Hc in E1. destruct E1 as (f & Hin & Hf). apply Hsev in Hf.
    split; split; try discriminate; try reflexivity.
    + intros _. eauto.
    + intros Hall. destruct (Hall f Hin) as [Hn _]. contradiction.
  - apply Hc in E1. destruct E1 as (f & Hin & Hf). apply Hsev in Hf.
    split; split; try discriminate; try reflexivity.
    + intros _. eauto.
    + intros Hall. destruct (Hall f Hin) as [Hn _]. contradiction.
  - apply Hw in E2. destruct E2 as (f & Hin & Hf). apply Hsev in Hf.
    split; split; try discriminate.
    + intros (g & Hg & Hgs). apply Hsev in Hgs.
      assert (0 < nc) by (apply Hc; eauto). lia.
    + intros Hall. destruct (Hall f Hin) as [_ Hn]. contradiction.
  - split; split; try discriminate; try reflexivity.
    + intros (g & Hg & Hgs). apply Hsev in Hgs.
      assert (0 < nc) by (apply Hc; eauto). lia.
    + intros _ f Hin. split; intros Hf; apply Hsev in Hf.
      * assert (0 < nc) by (apply Hc; eauto). lia.
      * assert (0 < nw) by (apply Hw; eauto). lia.
Qed.

(** X19: a report none of whose results carries a finding, as when every
    scanner was unavailable or raised, is summarized as healthy: the
    failed scans do not enter the overall status. *)
Theorem X19_failures_are_summarized_as_healthy (r : DiagnosticsReport.t) :
  (forall x, In x (DiagnosticsReport.results r) ->
             ScanResult.findings x = []) ->
  DiagnosticsReport.all_findings r = []
  /\ overall_status r = line_healthy
  /\ In (Say line_healthy None) (print_summary format_0f r).
Proof.
  intros Hnone.
  assert (Hall : DiagnosticsReport.all_findings r = []).
  { unfold DiagnosticsReport.all_findings.
    induction (DiagnosticsReport.results r) as [|x rest IH];
      [reflexivity|].
    simpl. rewrite (Hnone x (or_introl eq_refl)). simpl.
    apply IH. intros y Hy. apply Hnone. right. exact Hy. }
  assert (Hst : overall_status r = line_healthy).
  { unfold overall_status, DiagnosticsReport.critical_count,
      DiagnosticsReport.warning_count, ScanResult.critical_count,
      ScanResult.warning_count.
    rewrite !sum_counts_all_findings.
    fold (DiagnosticsReport.all_findings r). rewrite Hall. reflexivity. }
  split; [exact Hall | split; [exact Hst|]].
  apply summary_status_line; auto.
Qed.
End PrintingProperties.

(* ================================================================= *)
(** ** Failed scanners on the console and in the CSV export *)

Section FailureDisplay.
Context {H : Type} `{Host H}.
Variable format_0f : float -> string.
Variable isoformat : datetime -> string.

(** X20: the result of a scanner whose [scan] raised is printed as its
    status line, marked failed, followed by one line with the text of
    the exception; when that text is empty no line follows at all. *)
Theorem X20_print_of_a_fault (s : BaseScanner.t H) (w : World H)
    (str_e : string) :
  scan_raises_in s w str_e ->
  let r := fst (BaseScanner.run s w) in
  print_scan_result format_0f r
  = Say (String (ascii_of_nat 10) ""
           ++ "[red][X][/red]" ++ " [bold]" ++ BaseScanner.name s
           ++ "[/bold] (" ++ format_0f (ScanResult.duration_ms r) ++ "ms)")
        None
    :: match str_e with
       | EmptyString => []
       | _ => [Say ("  [red]Error: " ++ str_e ++ "[/red]") None]
       end.
Proof.
  intros Hr r. subst r.
  destruct (run_raised Hr) as (Hn & _ & Hs & Hf & He).
  unfold print_scan_result. rewrite Hs, Hn, He, Hf.
  destruct str_e; reflexivity.
Qed.

(** X21: the CSV export has the header row and one row of eight columns
    per finding, in the order of the report; a result without findings,
    as every result of an unavailable or faulted scanner is, adds no
    row. *)
Theorem X21_csv_rows (r : DiagnosticsReport.t) (x : ScanResult.t) :
  List.length (export_to_csv_rows isoformat r)
    = S (List.length (DiagnosticsReport.all_findings r))
  /\ Forall (fun row => List.length row = 8) (export_to_csv_rows isoformat r)
  /\ map (fun row => nth 3 row "") (tl (export_to_csv_rows isoformat r))
     = map Finding.title (DiagnosticsReport.all_findings r)
  /\ (ScanResult.findings x = [] ->
      export_to_csv_rows isoformat (DiagnosticsReport.add_result r x)
      = export_to_csv_rows isoformat r).
Proof.
  unfold export_to_csv_rows, DiagnosticsReport.all_findings.
  split; [|split; [|split]].
  - simpl. f_equal.
    induction (DiagnosticsReport.results r) as [|y rest IH]; [reflexivity|].
    simpl. rewrite !length_app, length_map, IH. reflexivity.
  - constructor; [reflexivity|].
    apply Forall_forall. intros row Hin. apply in_flat_map in Hin.
    destruct Hin as (y & _ & Hin). apply in_map_iff in Hin.
    destruct Hin as (f & <- & _). reflexivity.
  - simpl.
    induction (DiagnosticsReport.results r) as [|y rest IH]; [reflexivity|].
    simpl. rewrite !map_app, IH, map_map. reflexivity.
  - intros Hnone. simpl. rewrite flat_map_app. simpl.
    rewrite Hnone. simpl. rewrite app_nil_r. reflexivity.
Qed.
End FailureDisplay.

(* ================================================================= *)
(** ** The shipped scanners under the modes *)

Section ShippedProperties.
Context {H : Type} `{Host H}.
Variable scan_of : string -> float -> bool -> H -> outcome ScanResult.t * H.

(** X22: no two of the 26 shipped scanners share a key, so all are
    registered and "full" runs them in the order of [get_all_scanners];
    four of them are selected by none of the modes with an allow-list and
    run under "full" only: "Open Ports", "Startup Programs" and "User
    Accounts", whose keys are not the entries "ports", "startup" and
    "users" of "security", and "OS Info". *)
Theorem X22_shipped_scanners_and_modes (admin_status : bool) :
  let e := shipped_engine scan_of admin_status in
  let names mode :=
    map (fun s => BaseScanner.name s)
        (ScanEngine.get_scanners_for_mode e mode) in
  ScanEngine.scanner_count e = 26
  /\ names "full" = map (fun s => BaseScanner.name s)
                        (get_all_scanners scan_of)
  /\ filter (fun n =>
               negb (existsb (fun mode => str_in n (names mode))
                       ["quick"; "hardware"; "security"; "network"]))
            (names "full")
     = ["Open Ports"; "Startup Programs"; "User Accounts"; "OS Info"]
  /\ names "network"
     = ["Network Adapters"; "Connectivity"; "WiFi"; "DNS"; "Speed Test"].
Proof. repeat split; reflexivity. Qed.
End ShippedProperties.

(* ================================================================= *)
(** ** Concrete runs for the properties above *)

Lemma X1_register_then_run_single_witness :
  ScanEngine.run_single_scanner
    (ScanEngine.register_scanner (ScanEngine.init false) stub_c)
    "os info" sim_world
  = (Some (fst (BaseScanner.run stub_c sim_world)),
     snd (BaseScanner.run stub_c sim_world)).
Proof.
  exact (@X1_register_then_run_single SimHost _ (ScanEngine.init false)
           stub_c "os info" sim_world eq_refl).
Defined.

Lemma X2_run_single_unregistered_witness :
  ScanEngine.run_single_scanner stub_engine "GPU" sim_world
  = (None, sim_world).
Proof.
  apply (@X2_run_single_unregistered SimHost _ stub_engine "GPU" sim_world).
  vm_compute. intuition discriminate.
Defined.

Lemma X4_last_registration_wins_witness :
  ScanEngine.register_scanner
    (ScanEngine.register_scanner (ScanEngine.init false) stub_faulty)
    stub_silent_fault
  = ScanEngine.register_scanner (ScanEngine.init false) stub_silent_fault.
Proof.
  exact (@X4_last_registration_wins SimHost (ScanEngine.init false)
           stub_faulty stub_silent_fault eq_refl).
Defined.

Lemma X5_listed_keys_can_be_run_witness :
  exists s,
    In ("os_info", s) (ScanEngine._scanners stub_engine)
    /\ ScanEngine.run_single_scanner stub_engine "os_info" sim_world
       = (Some (fst (BaseScanner.run s sim_world)),
          snd (BaseScanner.run s sim_world)).
Proof.
  apply (@X5_listed_keys_can_be_run SimHost _ stub_engine "os_info"
           sim_world).
  - apply register_scanners_built. constructor.
  - vm_compute. auto.
Defined.

Lemma X6_registry_invariant_witness :
  NoDup (ScanEngine.available_scanners stub_engine)
  /\ ScanEngine.scanner_count stub_engine = 4.
Proof.
  assert (Hb : built stub_engine)
    by (apply register_scanners_built; constructor).
  destruct (@X6_registry_invariant SimHost _ stub_engine Hb)
    as (Hnd & Hcount & _).
  split; [exact Hnd | rewrite Hcount; reflexivity].
Defined.




Lemma X19_failures_are_summarized_as_healthy_witness :
  let report :=
    fst (fst (ScanEngine.run_scan failing_engine "full" None sim_world)) in
  map ScanResult.success (DiagnosticsReport.results report) = [false; false]
  /\ In (Say line_healthy None) (print_summary (fun _ => "0") report).
Proof.
  intros report. split; [reflexivity|].
  assert (Hnone : forall x, In x (DiagnosticsReport.results report) ->
                            ScanResult.findings x = []).
  { intros x Hx. vm_compute in Hx.
    destruct Hx as [<- | [<- | []]]; reflexivity. }
  destruct (@X19_failures_are_summarized_as_healthy (fun _ => "0")
              report Hnone) as (_ & _ & Hin).
  exact Hin.
Defined.

Lemma X20_print_of_a_fault_witness :
  print_scan_result (fun _ => "2")
    (fst (BaseScanner.run stub_silent_fault sim_world))
  = [Say (String (ascii_of_nat 10) ""
            ++ "[red][X][/red] [bold]Memory[/bold] (2ms)") None].
Proof.
  assert (Hr : scan_raises_in stub_silent_fault sim_world "")
    by (split; reflexivity).
  exact (@X20_print_of_a_fault SimHost _ (fun _ => "2") stub_silent_fault
           sim_world "" Hr).
Defined.

Lemma X21_csv_rows_witness :
  export_to_csv_rows (fun _ => "")
    (DiagnosticsReport.add_result sample_report (result_with [] 0%float))
  = export_to_csv_rows (fun _ => "") sample_report.
Proof.
  destruct (X21_csv_rows (fun _ => "") sample_report
              (result_with [] 0%float)) as (_ & _ & _ & Hadd).
  exact (Hadd eq_refl).
Defined.
